(** * emberTech cloud functions: a shallow embedding of [functions/index.js]

    The file models the two helper routines ([extractIdToken],
    [mockSummarize]) and the two authenticated HTTP handlers
    ([getUserNotes], [summarizeNote]) of the repository, and proves the
    properties its specification states about them.

    JavaScript strings are sequences of UTF-16 code units; [length] and
    [slice] count code units, so a string is a [list N] here.  The
    external collaborators (identity backend, document store,
    summarization backend) are oracles of a [world]; every call a handler
    makes to them is recorded in a trace. *)

From Stdlib Require Import NArith ZArith Ascii String List Bool Lia.
From stdpp Require Import base option list countable gmap.

Local Open Scope N_scope.

(** ** JavaScript strings *)

Module JsString.

(** One UTF-16 code unit, and a string of them. *)
Abbreviation cu := N (only parsing).
Abbreviation jsstring := (list N) (only parsing).

(** A source literal made of ASCII characters only. *)
Definition lit (s : string) : jsstring :=
  map N_of_ascii (list_ascii_of_string s).

Definition eqb (a b : jsstring) : bool := bool_decide (a = b).

(** [!s] for a string: the empty string is the only falsy one. *)
Definition is_empty (s : jsstring) : bool :=
  match s with [] => true | _ :: _ => false end.

(** ECMAScript LineTerminator: LF, CR, LS, PS.  The regular expression
    atom [.] (without the [s] flag) matches everything else. *)
Definition is_line_terminator (c : cu) : bool :=
  (c =? 10) || (c =? 13) || (c =? 8232) || (c =? 8233).

(** ECMAScript WhiteSpace or LineTerminator: what [\s] matches and what
    [String.prototype.trim] strips.  TAB, LF, VT, FF, CR, SP, NBSP,
    U+1680, U+2000..U+200A, LS, PS, U+202F, U+205F, U+3000, U+FEFF. *)
Definition is_space (c : cu) : bool :=
  ((9 <=? c) && (c <=? 13)) || (c =? 32) || (c =? 160) || (c =? 5760)
  || ((8192 <=? c) && (c <=? 8202)) || (c =? 8232) || (c =? 8233)
  || (c =? 8239) || (c =? 8287) || (c =? 12288) || (c =? 65279).

Fixpoint drop_spaces (s : jsstring) : jsstring :=
  match s with
  | [] => []
  | c :: r => if is_space c then drop_spaces r else s
  end.

(** [s.trim()] *)
Definition trim (s : jsstring) : jsstring :=
  rev (drop_spaces (rev (drop_spaces s))).

(** [s.replace(/\s+/g, " ")]: every maximal run of white space becomes
    one U+0020.  [in_run] tells that the previous code unit was part of
    the run being replaced. *)
Fixpoint collapse_from (in_run : bool) (s : jsstring) : jsstring :=
  match s with
  | [] => []
  | c :: r =>
      if is_space c
      then (if in_run then collapse_from true r
            else 32 :: collapse_from true r)
      else c :: collapse_from false r
  end.

Definition collapse_spaces (s : jsstring) : jsstring :=
  collapse_from false s.

(** The class [[.!?]]. *)
Definition is_sentence_end (c : cu) : bool :=
  (c =? 46) || (c =? 33) || (c =? 63).

(** [s.split(/(?<=[.!?])\s+/)[0]]: the separator matches at the first
    index whose code unit is white space and whose predecessor is one of
    [.!?]; element 0 of the result is everything before that index, and
    the whole string when the separator matches nowhere.  [prev] tells
    whether the look-behind succeeds at the head of [s]. *)
Fixpoint split_head_from (prev : bool) (s : jsstring) : jsstring :=
  match s with
  | [] => []
  | c :: r =>
      if prev && is_space c then []
      else c :: split_head_from (is_sentence_end c) r
  end.

Definition split_head (s : jsstring) : jsstring :=
  split_head_from false s.

(** [s.slice(0, n)] *)
Definition slice0 (n : nat) (s : jsstring) : jsstring := take n s.

(** Canonical form of a code unit for a case-insensitive match against
    an ASCII pattern (flag [i] without [u]): an ASCII lower-case letter
    is folded to upper case; no code unit above U+007F is ever folded
    onto an ASCII one. *)
Definition canon (c : cu) : cu :=
  if (97 <=? c) && (c <=? 122) then c - 32 else c.

Definition ci_eqb (a b : jsstring) : bool :=
  eqb (map canon a) (map canon b).

End JsString.

Import JsString.

(** ** JavaScript values *)

(** The values the handlers meet in query strings, parsed bodies, stored
    documents and backend replies.  A number is kept as the two things the
    handlers observe of it: whether it is truthy (neither zero nor NaN)
    and its [String()] rendering. *)
#[warnings="-register-all"]
Inductive jsval : Type :=
| VUndefined
| VNull
| VBool (b : bool)
| VNum (nonzero : bool) (shown : jsstring)
| VStr (s : jsstring)
| VArr (items : list jsval)
| VObj (fields : list (jsstring * jsval)).

(** ** Exceptions *)

Inductive exn : Type :=
| Error (msg : jsstring)        (* [new Error(msg)] thrown by the code *)
| TypeError (msg : jsstring)    (* thrown by the runtime, in its words *)
| Failure (detail : jsstring).  (* failure of an external collaborator *)

Inductive outcome (A : Type) : Type :=
| Ok (a : A)
| Throw (e : exn).

Arguments Ok {A} a.
Arguments Throw {A} e.

(** [String(err)] *)
Definition exn_to_string (e : exn) : jsstring :=
  match e with
  | Error msg => lit "Error: " ++ msg
  | TypeError msg => lit "TypeError: " ++ msg
  | Failure detail => detail
  end.

(** What the runtime throws when an object has no primitive value. *)
Definition cannot_convert : exn :=
  TypeError (lit "Cannot convert object to primitive value").

Module Js.

(** ToBoolean *)
Definition truthy (v : jsval) : bool :=
  match v with
  | VUndefined | VNull => false
  | VBool b => b
  | VNum nz _ => nz
  | VStr s => negb (is_empty s)
  | VArr _ | VObj _ => true
  end.

(** [a || b] *)
Definition or (a b : jsval) : jsval := if truthy a then a else b.

(** [a && b] *)
Definition and (a b : jsval) : jsval := if truthy a then b else a.

Fixpoint assoc (k : jsstring) (fs : list (jsstring * jsval)) : option jsval :=
  match fs with
  | [] => None
  | (k', v) :: r => if eqb k k' then Some v else assoc k r
  end.

(** [v.k] on a value that is neither [undefined] nor [null]: own
    properties of plain objects; the names read by the handlers are not
    properties of strings, numbers, booleans or arrays. *)
Definition prop (k : jsstring) (v : jsval) : jsval :=
  match v with
  | VObj fs => default VUndefined (assoc k fs)
  | _ => VUndefined
  end.

Definition join_with (sep : jsstring) (parts : list jsstring) : jsstring :=
  match parts with
  | [] => []
  | p :: r => p ++ concat (map (fun q => sep ++ q) r)
  end.

(** The object has an own property called [k]. *)
Definition has_own (k : jsstring) (fs : list (jsstring * jsval)) : bool :=
  match assoc k fs with Some _ => true | None => false end.

(** [String(v)] and [`${v}`] (ToString) for the values above.  Arrays join
    their elements with a comma, [null] and [undefined] elements rendering
    empty.  An object is converted through its [toString]: the inherited
    one gives [[object Object]]; an own field [toString] of a stored or
    parsed object is data, not a function, so that the conversion finds
    no primitive value and throws.  The conversion of an array throws
    when the conversion of one of its elements does. *)
Fixpoint to_string (v : jsval) : outcome jsstring :=
  match v with
  | VUndefined => Ok (lit "undefined")
  | VNull => Ok (lit "null")
  | VBool true => Ok (lit "true")
  | VBool false => Ok (lit "false")
  | VNum _ shown => Ok shown
  | VStr s => Ok s
  | VArr items =>
      let fix elements (l : list jsval) : outcome (list jsstring) :=
        match l with
        | [] => Ok []
        | x :: r =>
            match (match x with
                   | VUndefined | VNull => Ok []
                   | _ => to_string x
                   end) with
            | Throw e => Throw e
            | Ok s =>
                match elements r with
                | Throw e => Throw e
                | Ok ss => Ok (s :: ss)
                end
            end
        end in
      match elements items with
      | Throw e => Throw e
      | Ok parts => Ok (join_with (lit ",") parts)
      end
  | VObj fs =>
      if has_own (lit "toString") fs then Throw cannot_convert
      else Ok (lit "[object Object]")
  end.

End Js.

(** ** [mockSummarize] *)

Definition empty_note : jsstring := lit "(Nota vac" ++ [237] ++ lit "a)".

Definition ellipsis : jsstring := [8230].

Definition label : jsstring := lit "Resumen: ".

(** [String(text || "").trim().replace(/\s+/g, " ")] *)
Definition normalize (text : jsval) : outcome jsstring :=
  match Js.to_string (Js.or text (VStr [])) with
  | Throw e => Throw e
  | Ok str => Ok (collapse_spaces (trim str))
  end.

(** [firstSentence.length > 240 ? firstSentence.slice(0, 240) + "…" : firstSentence] *)
Definition clip (firstSentence : jsstring) : jsstring :=
  if (240 <? length firstSentence)%nat
  then slice0 240 firstSentence ++ ellipsis
  else firstSentence.

Definition mockSummarize (text : jsval) : outcome jsstring :=
  match normalize text with
  | Throw e => Throw e
  | Ok t =>
      if is_empty t then Ok empty_note
      else
        let firstSentence :=
          let head := split_head t in
          if is_empty head then slice0 240 t else head in
        Ok (label ++ clip firstSentence)
  end.


(** ** Effects: exceptions, external calls, the trace *)

(** The second argument of [fetch]; [payload] is the value handed to
    [JSON.stringify] for the request body. *)
Record fetch_request : Type := {
  url : jsstring;
  method : jsstring;
  req_headers : list (jsstring * jsstring);
  payload : jsval
}.

(** What the handler reads of the reply of [fetch]: [ok], [status], and
    the results of [await resp.text()] and [await resp.json()]. *)
Record fetch_response : Type := {
  ok : bool;
  status : N;
  read_text : outcome jsstring;
  read_json : outcome jsval
}.

(** A document snapshot: [snap.exists] and [snap.data()]. *)
Record snapshot : Type := {
  snap_exists : bool;
  snap_data : jsval
}.

(** A query document snapshot: [d.id] and the fields of [d.data()]. *)
Record document : Type := {
  doc_id : jsstring;
  doc_data : list (jsstring * jsval)
}.

(** The external collaborators.  Each oracle gives the result of the whole
    awaited expression of the source. *)
Record world : Type := {
  (** [getAuth().verifyIdToken(idToken)], then [.uid] *)
  verifyIdToken : jsstring -> outcome jsstring;
  (** [db.collection("users").doc(uid).collection("notes").get()], then [.docs] *)
  notes_get : jsstring -> outcome (list document);
  (** [db.collection("users").doc(uid).collection("notes").doc(noteId).get()] *)
  note_get : jsstring -> jsstring -> outcome snapshot;
  (** [fetch(url, init)] *)
  fetch : fetch_request -> outcome fetch_response
}.

Inductive event : Type :=
| LogInfo (msg : jsstring)
| LogError (msg : jsstring) (error : jsstring)
| LogBackendError (msg : jsstring) (status : N) (body : jsstring)
| CallVerify (idToken : jsstring)
| CallNotesGet (uid : jsstring)
| CallNoteGet (uid noteId : jsstring)
| CallFetch (req : fetch_request).

Definition is_fetch (ev : event) : bool :=
  match ev with CallFetch _ => true | _ => false end.

(** A computation extends the trace of effects and returns or throws. *)
Definition M (A : Type) : Type := list event -> outcome A * list event.

Module Eff.

Definition ret {A} (a : A) : M A := fun t => (Ok a, t).

Definition throw {A} (e : exn) : M A := fun t => (Throw e, t).

Definition bind {A B} (m : M A) (k : A -> M B) : M B :=
  fun t =>
    match m t with
    | (Ok a, t') => k a t'
    | (Throw e, t') => (Throw e, t')
    end.

(** [try { m } catch (err) { h err }] *)
Definition try_catch {A} (m : M A) (h : exn -> M A) : M A :=
  fun t =>
    match m t with
    | (Ok a, t') => (Ok a, t')
    | (Throw e, t') => h e t'
    end.

(** The result of a [try] block, for a [catch] that leaves the function. *)
Definition attempt {A} (m : M A) : M (outcome A) :=
  fun t => let '(r, t') := m t in (Ok r, t').

Definition emit (ev : event) : M unit := fun t => (Ok tt, t ++ [ev]).

(** An awaited external call [ev] whose result is [r]. *)
Definition await {A} (ev : event) (r : outcome A) : M A :=
  fun t => (r, t ++ [ev]).

Definition lift {A} (r : outcome A) : M A := fun t => (r, t).

Definition run {A} (m : M A) : outcome A * list event := m [].

End Eff.

Notation "'let*' x ':=' m 'in' k" := (Eff.bind m (fun x => k))
  (at level 10, x name, m at level 200, k at level 200,
   format "'[v' 'let*'  x  ':='  m  'in' '/' k ']'").

(** ** Requests and responses *)

Record request : Type := {
  headers : gmap jsstring jsstring;
  query : gmap jsstring jsval;
  body : jsval
}.

Inductive response_body : Type :=
| Json (v : jsval)        (* [response.json(v)] *)
| Plain (s : jsstring).   (* [response.send(s)] *)

Record response : Type := {
  code : N;
  sent : response_body
}.

(** [response.status(c).json({error: msg})] *)
Definition json_error (c : N) (msg : jsstring) : response :=
  {| code := c; sent := Json (VObj [(lit "error", VStr msg)]) |}.

(** [m.k] for a map of strings: [undefined] when the key is missing. *)
Definition str_field (m : gmap jsstring jsstring) (k : jsstring) : jsval :=
  match m !! k with
  | Some s => VStr s
  | None => VUndefined
  end.

(** [m.k] for a map of values. *)
Definition val_field (m : gmap jsstring jsval) (k : jsstring) : jsval :=
  default VUndefined (m !! k).

(** ** [extractIdToken] *)

Definition bearer : jsstring := lit "Bearer ".

(** [s.match(/^Bearer (.+)$/i)], group 1: the seven leading code units
    are [Bearer ] up to ASCII case, and the rest, up to the end of the
    string, is one or more code units none of which is a line terminator. *)
Definition match_bearer (s : jsstring) : option jsstring :=
  let rest := drop 7 s in
  if ci_eqb (take 7 s) bearer
     && negb (is_empty rest)
     && forallb (fun c => negb (is_line_terminator c)) rest
  then Some rest
  else None.

Definition missing_credential : exn :=
  Error (lit "Missing or invalid Authorization header").

Definition not_a_function (name : jsstring) : exn :=
  TypeError (name ++ lit " is not a function").

Definition extractIdToken (request : request) : M jsstring :=
  let authHeader :=
    Js.or (Js.or (str_field (headers request) (lit "authorization"))
                 (str_field (headers request) (lit "Authorization")))
          (VStr []) in
  let* match_ := match authHeader with
                 | VStr s => Eff.ret (match_bearer s)
                 | _ => Eff.throw (not_a_function (lit "authHeader.match"))
                 end in
  match match_ with
  | None => Eff.throw missing_credential
  | Some group1 => Eff.ret group1
  end.

(** ** Object helpers of the handlers *)

Module Obj.

(** [o[k] = v] on the ordered fields of an object: an existing key keeps
    its place and takes the new value, a new key goes last. *)
Fixpoint set (k : jsstring) (v : jsval) (fs : list (jsstring * jsval))
  : list (jsstring * jsval) :=
  match fs with
  | [] => [(k, v)]
  | (k', v') :: r => if eqb k k' then (k, v) :: r else (k', v') :: set k v r
  end.

(** [{...base, ...more}] *)
Definition spread (base more : list (jsstring * jsval))
  : list (jsstring * jsval) :=
  fold_left (fun acc kv => set (fst kv) (snd kv) acc) more base.

Definition has_key (k : jsstring) (v : jsval) : bool :=
  match v with
  | VObj fs => bool_decide (is_Some (Js.assoc k fs))
  | _ => false
  end.

Definition nullish (v : jsval) : bool :=
  match v with VUndefined | VNull => true | _ => false end.

(** [v[0]] on a value that is neither [undefined] nor [null]. *)
Definition index0 (v : jsval) : jsval :=
  match v with
  | VArr (x :: _) => x
  | VStr (c :: _) => VStr [c]
  | VObj fs => default VUndefined (Js.assoc (lit "0") fs)
  | _ => VUndefined
  end.

(** [v === s] for a string literal [s] *)
Definition strict_eq_str (v : jsval) (s : jsstring) : bool :=
  match v with VStr x => eqb x s | _ => false end.

End Obj.

(** ** The handlers *)

Section Handlers.

(** The collaborators, [process.env] when the module was loaded, and
    [process.env] when the request is handled. *)
Variable w : world.
Variable env0 : gmap jsstring jsstring.
Variable env : gmap jsstring jsstring.

Definition isEmulator : bool :=
  Obj.strict_eq_str (str_field env0 (lit "FUNCTIONS_EMULATOR")) (lit "true")
  || Js.truthy (str_field env0 (lit "FIREBASE_AUTH_EMULATOR_HOST"))
  || Js.truthy (str_field env0 (lit "FIRESTORE_EMULATOR_HOST")).

(** [(await getAuth().verifyIdToken(idToken)).uid] *)
Definition verify (idToken : jsstring) : M jsstring :=
  Eff.await (CallVerify idToken) (verifyIdToken w idToken).

(** [{id: d.id, ...d.data()}] *)
Definition note_object (d : document) : jsval :=
  VObj (Obj.spread [(lit "id", VStr (doc_id d))] (doc_data d)).

Definition getUserNotes (request : request) : M response :=
  let* _ := Eff.emit (LogInfo (lit "Get user notes function triggered")) in
  Eff.try_catch
    (let* idToken := extractIdToken request in
     let* uid := verify idToken in
     let* docs := Eff.await (CallNotesGet uid) (notes_get w uid) in
     let notes := map note_object docs in
     Eff.ret {| code := 200;
                sent := Json (VObj [(lit "notes", VArr notes)]) |})
    (fun err =>
     let* _ := Eff.emit (LogError (lit "getUserNotes error")
                                  (exn_to_string err)) in
     Eff.ret {| code := 401; sent := Plain (lit "Unauthorized") |}).

(** [v.trim()]: only a string has the method. *)
Definition call_trim (v : jsval) : M jsstring :=
  match v with
  | VStr s => Eff.ret (trim s)
  | _ => Eff.throw (not_a_function (lit "trim"))
  end.

(** [(request.query.id || (request.body && request.body.id) || "")] *)
Definition id_source (request : request) : jsval :=
  Js.or (Js.or (val_field (query request) (lit "id"))
               (Js.and (body request) (Js.prop (lit "id") (body request))))
        (VStr []).

(** [process.env.OPENAI_API_KEY || process.env.openai_key || ""] *)
Definition apiKey : jsval :=
  Js.or (Js.or (str_field env (lit "OPENAI_API_KEY"))
               (str_field env (lit "openai_key")))
        (VStr []).

(** [data.content || data.text || data.body || ""] *)
Definition note_text (data : jsval) : jsval :=
  Js.or (Js.or (Js.or (Js.prop (lit "content") data)
                      (Js.prop (lit "text") data))
               (Js.prop (lit "body") data))
        (VStr []).

(** [process.env.USE_MOCK_OPENAI === "1" || (isEmulator && !apiKey)] *)
Definition use_mock : bool :=
  Obj.strict_eq_str (str_field env (lit "USE_MOCK_OPENAI")) (lit "1")
  || (isEmulator && negb (Js.truthy apiKey)).

(** The template literal of the prompt; it throws when the conversion of
    the text does. *)
Definition prompt (text : jsval) : outcome jsstring :=
  match Js.to_string text with
  | Throw e => Throw e
  | Ok shown =>
      Ok (lit "Summarize the following note in one sentence without adding new info. Note: "
          ++ [34] ++ shown ++ [34])
  end.

(** The prompt, then the arguments of [fetch], in the order the code
    evaluates them. *)
Definition completion_request (text : jsval) : outcome fetch_request :=
  match prompt text with
  | Throw e => Throw e
  | Ok prompt =>
      match Js.to_string apiKey with
      | Throw e => Throw e
      | Ok key =>
          Ok {| url := lit "https://api.openai.com/v1/chat/completions";
                method := lit "POST";
                req_headers :=
                  [(lit "Authorization", lit "Bearer " ++ key);
                   (lit "Content-Type", lit "application/json")];
                payload :=
                  VObj [(lit "model", VStr (lit "gpt-4o-mini"));
                        (lit "messages",
                         VArr [VObj [(lit "role", VStr (lit "system"));
                                     (lit "content",
                                      VStr (lit "Agent that summarizes user notes."))];
                               VObj [(lit "role", VStr (lit "user"));
                                     (lit "content", VStr prompt)]]);
                        (lit "temperature", VNum true (lit "0.3"));
                        (lit "max_tokens", VNum true (lit "60"))] |}
      end
  end.

(** [aiJson.choices?.[0]?.message?.content?.trim()] *)
Definition choice_content (aiJson : jsval) : M jsval :=
  if Obj.nullish aiJson
  then Eff.throw (TypeError (lit "Cannot read properties of "
                             ++ (match aiJson with
                                 | VNull => lit "null"
                                 | _ => lit "undefined"
                                 end)
                             ++ lit " (reading 'choices')"))
  else
    let choices := Js.prop (lit "choices") aiJson in
    if Obj.nullish choices then Eff.ret VUndefined else
    let first := Obj.index0 choices in
    if Obj.nullish first then Eff.ret VUndefined else
    let message := Js.prop (lit "message") first in
    if Obj.nullish message then Eff.ret VUndefined else
    let content := Js.prop (lit "content") message in
    if Obj.nullish content then Eff.ret VUndefined else
    let* trimmed := call_trim content in
    Eff.ret (VStr trimmed).

Definition summarizeNote (request : request) : M response :=
  let* _ := Eff.emit (LogInfo (lit "summarizeNote triggered")) in
  let* noteId := call_trim (id_source request) in
  if is_empty noteId
  then Eff.ret (json_error 400 (lit "Missing note id"))
  else
  let* auth := Eff.attempt (let* idToken := extractIdToken request in
                            verify idToken) in
  match auth with
  | Throw err =>
      let* _ := Eff.emit (LogError (lit "Auth failure summarizeNote")
                                   (exn_to_string err)) in
      Eff.ret (json_error 401 (lit "Unauthorized"))
  | Ok uid =>
      Eff.try_catch
        (let* noteSnap := Eff.await (CallNoteGet uid noteId)
                                    (note_get w uid noteId) in
         if negb (snap_exists noteSnap)
         then Eff.ret (json_error 404 (lit "Note not found"))
         else
         let data := Js.or (snap_data noteSnap) (VObj []) in
         let text := note_text data in
         if negb (Js.truthy text)
         then Eff.ret (json_error 400
                (lit "Note has no text field (expected content/text/body)"))
         else
         if use_mock
         then
           let* summary := Eff.lift (mockSummarize text) in
           Eff.ret {| code := 200;
                      sent := Json (VObj [(lit "id", VStr noteId);
                                          (lit "summary", VStr summary);
                                          (lit "mocked", VBool true)]) |}
         else
         if negb (Js.truthy apiKey)
         then Eff.ret (json_error 500 (lit "OpenAI API key not configured"))
         else
         let* init := Eff.lift (completion_request text) in
         let* openAiResp := Eff.await (CallFetch init) (fetch w init) in
         if negb (ok openAiResp)
         then
           let* errText := Eff.lift (read_text openAiResp) in
           let* _ := Eff.emit (LogBackendError (lit "OpenAI API error")
                                 (status openAiResp) errText) in
           Eff.ret {| code := 502;
                      sent := Json (VObj [(lit "error",
                                           VStr (lit "Failed to summarize"));
                                          (lit "details", VStr errText)]) |}
         else
           let* aiJson := Eff.lift (read_json openAiResp) in
           let* content := choice_content aiJson in
           let summary := Js.or content (VStr (lit "(No summary)")) in
           Eff.ret {| code := 200;
                      sent := Json (VObj [(lit "id", VStr noteId);
                                          (lit "summary", summary)]) |})
        (fun err =>
         let* _ := Eff.emit (LogError (lit "summarizeNote failure")
                                      (exn_to_string err)) in
         Eff.ret (json_error 500 (lit "Internal error")))
  end.

End Handlers.

(** ** Vocabulary of the specification *)

(** Index [i] is a split point of [t]: the code unit at [i] is white space
    and the one before it is sentence-ending punctuation. *)
Definition split_at (t : jsstring) (i : nat) : bool :=
  match i with
  | O => false
  | S j =>
      match t !! j, t !! i with
      | Some p, Some c => is_sentence_end p && is_space c
      | _, _ => false
      end
  end.

(** The first split point of [t], if there is one. *)
Definition first_split (t : jsstring) : option nat :=
  find (split_at t) (seq 0 (length t)).

(** The segment the specification chooses: the text before the first split
    point, and the first 240 code units when there is no split point. *)
Definition spec_segment (t : jsstring) : jsstring :=
  match first_split t with
  | Some i => take i t
  | None => take 240 t
  end.

(** The summarizer as the specification words it: normalize, choose
    [spec_segment], truncate to 240 with an ellipsis when the chosen
    segment is longer, put the label in front. *)
Definition mockSummarize_spec (text : jsval) : outcome jsstring :=
  match normalize text with
  | Throw e => Throw e
  | Ok t => if is_empty t then Ok empty_note
            else Ok (label ++ clip (spec_segment t))
  end.

(** The segment the code chooses: the text before the first split point,
    and the whole text when there is no split point. *)
Definition code_segment (t : jsstring) : jsstring :=
  match first_split t with
  | Some i => take i t
  | None => t
  end.

(** Every white space of [s] is one U+0020 standing alone: no other white
    space, no two in a row, none right after a white space when
    [after_space] is set. *)
Fixpoint single_spaced (after_space : bool) (s : jsstring) : bool :=
  match s with
  | [] => true
  | c :: r =>
      if is_space c
      then (c =? 32) && negb after_space && single_spaced true r
      else single_spaced false r
  end.

(** A normalized text: no white space at either end, and inside only
    single U+0020. *)
Definition normalized (s : jsstring) : Prop :=
  (forall c, head s = Some c -> is_space c = false)
  /\ (forall c, last s = Some c -> is_space c = false)
  /\ single_spaced false s = true.

(** A string made of white space only (the empty string included). *)
Definition blank (s : jsstring) : Prop := forallb is_space s = true.

(** ASCII lower-casing of a header name, as Node's HTTP parser does. *)
Definition lower (c : cu) : cu :=
  if (65 <=? c) && (c <=? 90) then c + 32 else c.

(** The header collection of an incoming message: Node delivers every
    header name in lower case. *)
Definition lowercase_names (h : gmap jsstring jsstring) : Prop :=
  map_Forall (fun k _ => map lower k = k) h.

(** [v] is the value of the header called [name], whatever the case of the
    letters of the name. *)
Definition header_value (h : gmap jsstring jsstring) (name v : jsstring)
  : Prop :=
  exists k, ci_eqb k name = true /\ h !! k = Some v.

(** [v] matches the pattern [Bearer X] with a case-insensitive prefix: [X]
    is what follows the prefix, at least one code unit, none of them a
    line terminator. *)
Definition bearer_value (v X : jsstring) : Prop :=
  exists p, v = p ++ X /\ ci_eqb p bearer = true /\ X <> []
            /\ forallb (fun c => negb (is_line_terminator c)) X = true.

(** A field of a document is populated when its value is truthy. *)
Definition populated (k : jsstring) (data : jsval) : Prop :=
  Js.truthy (Js.prop k data) = true.

(** The process runs in the local emulator: [FUNCTIONS_EMULATOR] is
    [true], or one of the two emulator hosts is set to a value that is not
    empty. *)
Definition running_in_emulator (env0 : gmap jsstring jsstring) : Prop :=
  env0 !! lit "FUNCTIONS_EMULATOR" = Some (lit "true")
  \/ (exists host, env0 !! lit "FIREBASE_AUTH_EMULATOR_HOST" = Some host
                   /\ host <> [])
  \/ (exists host, env0 !! lit "FIRESTORE_EMULATOR_HOST" = Some host
                   /\ host <> []).

(** The force-mock flag: [USE_MOCK_OPENAI] is exactly [1]. *)
Definition force_mock (env : gmap jsstring jsstring) : Prop :=
  env !! lit "USE_MOCK_OPENAI" = Some (lit "1").

(** No API key under either of the two variable names. *)
Definition no_api_key (env : gmap jsstring jsstring) : Prop :=
  Js.truthy (apiKey env) = false.

(** The trace of a request that got through authentication and the fetch
    of the note. *)
Definition trace_to_note (idToken uid noteId : jsstring) : list event :=
  [LogInfo (lit "summarizeNote triggered");
   CallVerify idToken;
   CallNoteGet uid noteId].

(** A request gets through the parsing of the identifier, authentication
    and the fetch of the note: the identifier is a string that is not
    blank and trims to [noteId], the credential [idToken] is extracted and
    verified as [uid], the note exists and its fields are [data]. *)
Record reaches_note (w : world) (request : request)
       (idToken uid noteId : jsstring) (data : jsval) : Prop := {
  rn_id : exists s, id_source request = VStr s /\ trim s = noteId;
  rn_nonempty : noteId <> [];
  rn_token : forall t, extractIdToken request t = (Ok idToken, t);
  rn_verified : verifyIdToken w idToken = Ok uid;
  rn_note : exists snap,
      note_get w uid noteId = Ok snap /\ snap_exists snap = true
      /\ Js.or (snap_data snap) (VObj []) = data
}.

(** A request reaches the summarization decision with the text [text]:
    it got to the note, and the text extracted from it is truthy. *)
Definition reaches_decision (w : world) (request : request)
           (idToken uid noteId : jsstring) (text : jsval) : Prop :=
  exists data, reaches_note w request idToken uid noteId data
               /\ note_text data = text /\ Js.truthy text = true.

(** ** Sample requests and collaborators *)

Module Sample.

(** A request with one Authorization header, an [id] query parameter
    and a body. *)
Definition req (authorization : string) (id body : jsval) : request :=
  {| headers := {[ lit "authorization" := lit authorization ]};
     query := {[ lit "id" := id ]};
     body := body |}.

Definition note : snapshot :=
  {| snap_exists := true;
     snap_data := VObj [(lit "content", VStr []);
                        (lit "text", VStr (lit "Hi there. More."))] |}.

Definition empty_note_doc : snapshot :=
  {| snap_exists := true; snap_data := VObj [(lit "title", VStr (lit "x"))] |}.

Definition reply (ok : bool) (body : string) (parsed : jsval)
  : fetch_response :=
  {| ok := ok; status := if ok then 200 else 429;
     read_text := Ok (lit body); read_json := Ok parsed |}.

Definition completion : jsval :=
  VObj [(lit "choices",
         VArr [VObj [(lit "message",
                      VObj [(lit "content", VStr (lit " Short. "))])]])].

(** The token [abc] belongs to user [u1] and the token [def] to user
    [u2]; every other token is rejected.  Note [n1] exists, note [n2] has
    no text, the listing of the notes of any user but [u1] fails. *)
Definition w (backend : fetch_response) : world :=
  {| verifyIdToken := fun t =>
       if eqb t (lit "abc") then Ok (lit "u1")
       else if eqb t (lit "def") then Ok (lit "u2")
       else Throw (Failure (lit "invalid token"));
     notes_get := fun u =>
       if eqb u (lit "u1")
       then Ok [{| doc_id := lit "n1";
                   doc_data := [(lit "content", VStr (lit "Hi"))] |}]
       else Throw (Failure (lit "unavailable"));
     note_get := fun _ n =>
       if eqb n (lit "n1") then Ok note
       else if eqb n (lit "n2") then Ok empty_note_doc
       else Ok {| snap_exists := false; snap_data := VUndefined |};
     fetch := fun _ => Ok backend |}.

Definition mock_env : gmap jsstring jsstring :=
  {[ lit "USE_MOCK_OPENAI" := lit "1" ]}.

Definition live_env : gmap jsstring jsstring :=
  {[ lit "OPENAI_API_KEY" := lit "k" ]}.

Definition emulator_env : gmap jsstring jsstring :=
  {[ lit "FUNCTIONS_EMULATOR" := lit "true" ]}.

(** A note whose text is a map with a field [toString]. *)
Definition odd_text : jsval := VObj [(lit "toString", VStr (lit "x"))].

Definition odd_note : snapshot :=
  {| snap_exists := true; snap_data := VObj [(lit "content", odd_text)] |}.

(** The collaborators of [w], with the note [odd_note] under every
    identifier. *)
Definition odd_world (backend : fetch_response) : world :=
  {| verifyIdToken := verifyIdToken (w backend);
     notes_get := notes_get (w backend);
     note_get := fun _ _ => Ok odd_note;
     fetch := fetch (w backend) |}.

End Sample.

(** ** [helloWorld] *)

Definition helloWorld (request : request) : M response :=
  let* _ := Eff.emit (LogInfo (lit "Hello logs!")) in
  Eff.ret {| code := 200; sent := Plain (lit "Hello from Firebase!") |}.

(** ** Vocabulary of the further properties *)

(** Every white space of [s] is U+0020: the string holds no line break,
    tab or other space. *)
Definition one_line (s : jsstring) : Prop :=
  Forall (fun c => is_space c = true -> c = 32) s.

Definition is_verify (ev : event) : bool :=
  match ev with CallVerify _ => true | _ => false end.

Definition is_note_get (ev : event) : bool :=
  match ev with CallNoteGet _ _ => true | _ => false end.

Definition is_notes_get (ev : event) : bool :=
  match ev with CallNotesGet _ => true | _ => false end.

Definition is_external (ev : event) : bool :=
  is_verify ev || is_notes_get ev || is_note_get ev || is_fetch ev.

(** How many events of a trace are of a kind. *)
Definition calls (kind : event -> bool) (t : list event) : nat :=
  length (List.filter kind t).

(** The fields of a JavaScript object have distinct names. *)
Definition unique_keys (fs : list (jsstring * jsval)) : Prop :=
  NoDup (map fst fs).

(** The status codes of the answers of [summarizeNote]. *)
Definition summarize_codes : list N := [200; 400; 401; 404; 500; 502].

(** A request that carries one header, under the lower-case name. *)
Definition with_authorization (v : jsstring) : request :=
  {| headers := {[ lit "authorization" := v ]}; query := ∅;
     body := VUndefined |}.

(** The credential of a request is [idToken] and belongs to [uid]. *)
Definition authenticated (w : world) (request : request)
           (idToken uid : jsstring) : Prop :=
  fst (extractIdToken request []) = Ok idToken
  /\ verifyIdToken w idToken = Ok uid.

(** The answers of [summarizeNote] that report an error with a fixed
    body. *)
Definition summarize_errors : list response :=
  [json_error 400 (lit "Missing note id");
   json_error 401 (lit "Unauthorized");
   json_error 404 (lit "Note not found");
   json_error 400 (lit "Note has no text field (expected content/text/body)");
   json_error 500 (lit "OpenAI API key not configured");
   json_error 500 (lit "Internal error")].

(** The answer that reports a failure of the backend with its body. *)
Definition backend_failure (details : jsstring) : response :=
  {| code := 502;
     sent := Json (VObj [(lit "error", VStr (lit "Failed to summarize"));
                         (lit "details", VStr details)]) |}.

(** The answer of the live path: 200 with the identifier and the summary. *)
Definition live_answer (noteId summary : jsstring) : response :=
  {| code := 200;
     sent := Json (VObj [(lit "id", VStr noteId);
                         (lit "summary", VStr summary)]) |}.

(** The reply of the summarization backend, as far as [summarizeNote]
    reads it: a [choices] array whose first element has a [message] with
    the [content] given. *)
Definition completion_of (content : jsval) (more : list jsval) : jsval :=
  VObj [(lit "choices",
         VArr (VObj [(lit "message", VObj [(lit "content", content)])]
               :: more))].

(** ** Strings *)

Lemma is_empty_nil (s : jsstring) : is_empty s = true <-> s = [].
Proof. destruct s; simpl; split; congruence. Qed.

Lemma is_empty_false (s : jsstring) : is_empty s = false <-> s <> [].
Proof. destruct s; simpl; split; congruence. Qed.

Lemma eqb_eq (a b : jsstring) : eqb a b = true <-> a = b.
Proof. unfold eqb. apply bool_decide_eq_true. Qed.

Lemma drop_spaces_nil (s : jsstring) : drop_spaces s = [] <-> blank s.
Proof.
  unfold blank. induction s as [|c r IH]; simpl; [tauto|].
  destruct (is_space c); simpl; [exact IH|].
  split; discriminate.
Qed.

Lemma drop_spaces_blank_inv (s : jsstring) :
  blank (drop_spaces s) -> drop_spaces s = [].
Proof.
  unfold blank. induction s as [|c r IH]; simpl; [reflexivity|].
  destruct (is_space c) eqn:Hc; [exact IH|].
  simpl. rewrite Hc. discriminate.
Qed.

Lemma blank_rev (s : jsstring) : blank (rev s) <-> blank s.
Proof.
  unfold blank. rewrite !forallb_forall.
  split; intros H c Hin; apply H; [apply in_rev in Hin | apply in_rev];
    try rewrite rev_involutive; assumption.
Qed.

Lemma trim_nil (s : jsstring) : trim s = [] <-> blank s.
Proof.
  unfold trim. split.
  - intros H. apply (f_equal (@rev cu)) in H.
    rewrite rev_involutive in H. simpl in H.
    apply drop_spaces_nil, blank_rev, drop_spaces_blank_inv in H.
    now apply drop_spaces_nil.
  - intros H. apply drop_spaces_nil in H. now rewrite H.
Qed.

Lemma collapse_spaces_nil (s : jsstring) : collapse_spaces s = [] <-> s = [].
Proof.
  unfold collapse_spaces. destruct s as [|c r]; simpl; [tauto|].
  destruct (is_space c); split; discriminate.
Qed.

Lemma drop_spaces_head (s : jsstring) (c : cu) :
  head (drop_spaces s) = Some c -> is_space c = false.
Proof.
  induction s as [|d r IH]; simpl; [discriminate|].
  destruct (is_space d) eqn:Hd; [exact IH|].
  simpl. now intros [= <-].
Qed.

Lemma drop_spaces_suffix (s : jsstring) :
  exists a, s = a ++ drop_spaces s /\ blank a.
Proof.
  unfold blank. induction s as [|d r (a & Ha & Hb)]; simpl.
  - now exists [].
  - destruct (is_space d) eqn:Hd.
    + exists (d :: a). simpl. rewrite Hd, Hb. now rewrite <- Ha.
    + now exists [].
Qed.

Lemma drop_spaces_last (s : jsstring) (c : cu) :
  last (drop_spaces s) = Some c -> last s = Some c.
Proof.
  destruct (drop_spaces_suffix s) as (a & Ha & _). intros Hl.
  rewrite Ha. destruct (drop_spaces s) as [|d r]; [discriminate|].
  now rewrite last_app_cons.
Qed.

Lemma last_rev (s : jsstring) : last (rev s) = head s.
Proof. destruct s as [|c r]; [reflexivity|]. simpl. apply last_snoc. Qed.

Lemma head_rev (s : jsstring) : head (rev s) = last s.
Proof. rewrite <- (rev_involutive s) at 2. symmetry. apply last_rev. Qed.

Lemma trim_ends (s : jsstring) :
  (forall c, head (trim s) = Some c -> is_space c = false)
  /\ (forall c, last (trim s) = Some c -> is_space c = false).
Proof.
  unfold trim. split; intros c.
  - rewrite head_rev. intros H. apply drop_spaces_last in H.
    rewrite last_rev in H. now apply drop_spaces_head in H.
  - rewrite last_rev. apply drop_spaces_head.
Qed.

(** What trimming removes is white space at the two ends. *)
Lemma trim_middle (s : jsstring) :
  exists a b, s = a ++ trim s ++ b /\ blank a /\ blank b.
Proof.
  destruct (drop_spaces_suffix s) as (a & Ha & Hblank_a).
  destruct (drop_spaces_suffix (rev (drop_spaces s))) as (b & Hb & Hblank_b).
  exists a, (rev b). unfold trim. repeat split.
  - rewrite Ha at 1. f_equal.
    apply (f_equal (@rev N)) in Hb. rewrite rev_involutive in Hb.
    rewrite <- rev_app_distr. exact Hb.
  - assumption.
  - now apply blank_rev.
Qed.

Lemma collapse_from_single_spaced (s : jsstring) (in_run : bool) :
  single_spaced in_run (collapse_from in_run s) = true.
Proof.
  revert in_run. induction s as [|c r IH]; intros in_run; simpl.
  - reflexivity.
  - destruct (is_space c) eqn:Hc.
    + destruct in_run; [apply IH|]. simpl. apply IH.
    + simpl. rewrite Hc. apply IH.
Qed.

Lemma collapse_from_head (s : jsstring) (in_run : bool) (c : cu) :
  head s = Some c -> is_space c = false ->
  head (collapse_from in_run s) = Some c.
Proof. destruct s as [|d r]; simpl; [discriminate|]. now intros [= ->] ->. Qed.

Lemma collapse_from_cons (d : cu) (r : jsstring) (in_run : bool) :
  exists front b, collapse_from in_run (d :: r) = front ++ collapse_from b r.
Proof.
  simpl. destruct (is_space d), in_run.
  - now exists [], true.
  - now exists [32], true.
  - now exists [d], false.
  - now exists [d], false.
Qed.

Lemma collapse_from_last (s : jsstring) (in_run : bool) (c : cu) :
  last s = Some c -> is_space c = false ->
  last (collapse_from in_run s) = Some c.
Proof.
  revert in_run. induction s as [|d r IH]; intros in_run; [discriminate|].
  destruct r as [|e r'].
  - simpl. now intros [= ->] ->.
  - intros Hl Hc. change (last (d :: e :: r')) with (last (e :: r')) in Hl.
    destruct (collapse_from_cons d (e :: r') in_run) as (front & b & ->).
    now rewrite last_app, (IH b Hl Hc).
Qed.

Lemma collapse_trim_normalized (str : jsstring) :
  normalized (collapse_spaces (trim str)).
Proof.
  unfold normalized, collapse_spaces.
  destruct (trim_ends str) as [Hh Hl].
  set (x := trim _) in *. repeat split.
  - intros c Hc. destruct x as [|d r]; [discriminate|].
    specialize (Hh d eq_refl). simpl in Hc. rewrite Hh in Hc.
    now injection Hc as <-.
  - intros c Hc. destruct (last x) as [d|] eqn:Hd.
    + specialize (Hl d eq_refl).
      rewrite (collapse_from_last x false d Hd Hl) in Hc. congruence.
    + apply last_None in Hd. now rewrite Hd in Hc.
  - apply collapse_from_single_spaced.
Qed.

(** A normalized form is the trimmed and collapsed rendering of the text. *)
Lemma normalize_inv (text : jsval) (t : jsstring) :
  normalize text = Ok t
  <-> exists str, Js.to_string (Js.or text (VStr [])) = Ok str
                  /\ t = collapse_spaces (trim str).
Proof.
  unfold normalize. destruct (Js.to_string _) as [str|e]; split.
  - intros [= <-]. now exists str.
  - intros (str' & [= <-] & ->). reflexivity.
  - discriminate.
  - intros (str' & H & _). discriminate.
Qed.

Lemma normalize_string (s : jsstring) :
  normalize (VStr s) = Ok (collapse_spaces (trim s)).
Proof. unfold normalize. now destruct s. Qed.

Lemma normalize_normalized (text : jsval) (t : jsstring) :
  normalize text = Ok t -> normalized t.
Proof.
  intros H. apply normalize_inv in H as (str & _ & ->).
  apply collapse_trim_normalized.
Qed.

Lemma normalize_nil (s : jsstring) : normalize (VStr s) = Ok [] <-> blank s.
Proof.
  rewrite normalize_string. split.
  - intros [= H]. now apply collapse_spaces_nil, trim_nil in H.
  - intros H. apply trim_nil in H. now rewrite H.
Qed.

Lemma split_head_from_find (s pre : jsstring) (prev : bool) :
  prev = match last pre with Some p => is_sentence_end p | None => false end ->
  pre ++ split_head_from prev s
  = match find (split_at (pre ++ s)) (seq (length pre) (length s)) with
    | Some i => take i (pre ++ s)
    | None => pre ++ s
    end.
Proof.
  revert pre prev. induction s as [|c r IH]; intros pre prev Hprev.
  - reflexivity.
  - cbn [split_head_from length seq find].
    assert (Hat : split_at (pre ++ c :: r) (length pre) = prev && is_space c).
    { unfold split_at. destruct (length pre) as [|j] eqn:Hlen.
      - apply length_zero_iff_nil in Hlen. subst. reflexivity.
      - rewrite <- Hlen, (list_lookup_middle pre r c (length pre) eq_refl).
        rewrite lookup_app_l by lia.
        rewrite last_lookup, Hlen in Hprev. simpl in Hprev.
        destruct (pre !! j); subst; reflexivity. }
    rewrite Hat. destruct (prev && is_space c).
    + rewrite app_nil_r, take_app_length. reflexivity.
    + specialize (IH (pre ++ [c]) (is_sentence_end c)).
      rewrite last_snoc, <- !app_assoc, length_app in IH. simpl in IH.
      rewrite Nat.add_1_r in IH. apply IH. reflexivity.
Qed.

Lemma split_head_code_segment (t : jsstring) : split_head t = code_segment t.
Proof. apply (split_head_from_find t [] false). reflexivity. Qed.

Lemma split_head_nonempty (t : jsstring) : t <> [] -> split_head t <> [].
Proof. destruct t; [congruence|discriminate]. Qed.

(** ** [mockSummarize] *)

(** C8.  A text whose normalized form is empty is summarized by the fixed
    empty-note string; a string is normalized to the empty string exactly
    when it is blank, so that the empty string and a string of three
    spaces both give the empty-note string. *)
Theorem mockSummarize_empty_note :
  (forall text : jsval,
      normalize text = Ok [] -> mockSummarize text = Ok empty_note)
  /\ (forall s : jsstring, normalize (VStr s) = Ok [] <-> blank s)
  /\ mockSummarize (VStr []) = Ok empty_note
  /\ mockSummarize (VStr (lit "   ")) = Ok empty_note
  /\ empty_note = lit "(Nota vac" ++ [237] ++ lit "a)".
Proof.
  split; [|split; [|repeat split]].
  - intros text H. unfold mockSummarize. now rewrite H.
  - apply normalize_nil.
Qed.

Lemma mockSummarize_empty_note_witness :
  normalize (VStr (lit " ")) = Ok []
  /\ mockSummarize (VStr (lit " ")) = Ok empty_note.
Proof.
  assert (H : normalize (VStr (lit " ")) = Ok []).
  { apply (proj1 (proj2 mockSummarize_empty_note)). reflexivity. }
  split; [exact H|].
  apply (proj1 mockSummarize_empty_note). exact H.
Defined.

(** C2, as the code has it.  For a text whose normalized form [t] is not
    empty, the summary is the label followed by the chosen segment, cut to
    240 code units and followed by the ellipsis exactly when it is longer
    than 240.  The chosen segment is the part of [t] before its first
    split point (white space that follows one of [.!?]) and the whole of
    [t] when there is no split point.  A string is normalized by trimming
    it and collapsing its runs of white space: the normalized text has no
    white space at its ends, and inside only single spaces. *)
Theorem mockSummarize_first_sentence :
  (forall s : jsstring, normalize (VStr s) = Ok (collapse_spaces (trim s)))
  /\ (forall (text : jsval) (t : jsstring),
        normalize text = Ok t -> normalized t)
  /\ (forall (text : jsval) (t : jsstring),
        normalize text = Ok t ->
        t <> [] ->
        let segment :=
          match first_split t with Some i => take i t | None => t end in
        mockSummarize text
        = Ok (label ++ (if (240 <? length segment)%nat
                        then take 240 segment ++ ellipsis
                        else segment)))
  /\ mockSummarize (VStr (lit "Hello world. Second sentence."))
     = Ok (lit "Resumen: Hello world.").
Proof.
  split; [|split; [|split]].
  - apply normalize_string.
  - apply normalize_normalized.
  - intros text t Ht Hne. cbv zeta. unfold mockSummarize. rewrite Ht.
    apply is_empty_false in Hne as He. rewrite He.
    pose proof (split_head_nonempty _ Hne) as Hh.
    apply is_empty_false in Hh. rewrite Hh.
    rewrite split_head_code_segment. reflexivity.
  - reflexivity.
Qed.

Lemma mockSummarize_first_sentence_witness :
  mockSummarize (VStr (lit "One. Two"))
  = Ok (label ++ lit "One.").
Proof.
  exact (proj1 (proj2 (proj2 mockSummarize_first_sentence))
           (VStr (lit "One. Two")) (lit "One. Two")
           eq_refl ltac:(discriminate)).
Defined.

(** C2, as the specification words it, fails on a text of 241 letters [a]:
    it has no split point, the specification falls back to its first 240
    code units and adds no ellipsis, and the code keeps the whole text as
    the segment, cuts it to 240 and adds the ellipsis. *)
Lemma mockSummarize_no_split_point_ellipsis :
  let text := VStr (repeat 97 241%nat) in
  normalize text = Ok (repeat 97 241%nat)
  /\ first_split (repeat 97 241%nat) = None
  /\ mockSummarize text = Ok (label ++ repeat 97 240%nat ++ ellipsis)
  /\ mockSummarize_spec text = Ok (label ++ repeat 97 240%nat)
  /\ mockSummarize text <> mockSummarize_spec text.
Proof.
  cbv zeta. repeat split; try (vm_compute; reflexivity).
  intros H.
  assert (Hl : forall a b : jsstring,
             Ok a = Ok b -> length a = length b) by (now intros a b [= ->]).
  assert (Hc : mockSummarize (VStr (repeat 97 241%nat))
               = Ok (label ++ repeat 97 240%nat ++ ellipsis))
    by (vm_compute; reflexivity).
  assert (Hs : mockSummarize_spec (VStr (repeat 97 241%nat))
               = Ok (label ++ repeat 97 240%nat))
    by (vm_compute; reflexivity).
  rewrite Hc, Hs in H. apply Hl in H. vm_compute in H. discriminate.
Qed.

(** ** [extractIdToken] *)

Lemma or_truthy (a b : jsval) : Js.truthy a = true -> Js.or a b = a.
Proof. unfold Js.or. now intros ->. Qed.

Lemma or_falsy (a b : jsval) : Js.truthy a = false -> Js.or a b = b.
Proof. unfold Js.or. now intros ->. Qed.

Lemma ci_eqb_length (a b : jsstring) : ci_eqb a b = true -> length a = length b.
Proof.
  unfold ci_eqb. rewrite eqb_eq. intros H.
  apply (f_equal length) in H. now rewrite !length_map in H.
Qed.

Lemma match_bearer_spec (v X : jsstring) :
  match_bearer v = Some X <-> bearer_value v X.
Proof.
  unfold match_bearer, bearer_value. split.
  - destruct (ci_eqb (take 7 v) bearer) eqn:Hp; [|discriminate].
    destruct (is_empty (drop 7 v)) eqn:He; [discriminate|].
    destruct (forallb _ (drop 7 v)) eqn:Hl; [|discriminate].
    simpl. intros [= <-]. exists (take 7 v).
    rewrite take_drop. apply is_empty_false in He. auto.
  - intros (p & -> & Hp & Hne & Hl).
    apply ci_eqb_length in Hp as Hlen. change (length bearer) with 7%nat in Hlen.
    rewrite <- Hlen, take_app_length, drop_app_length, Hp, Hl.
    apply is_empty_false in Hne. now rewrite Hne.
Qed.

Lemma lower_canon (c : cu) : lower (canon c) = lower c.
Proof.
  unfold lower, canon.
  destruct (N.leb_spec 97 c), (N.leb_spec c 122); cbn [andb];
    repeat match goal with
           | |- context [(?a <=? ?b)] => destruct (N.leb_spec a b)
           end; cbn [andb]; lia.
Qed.

Lemma lowercase_key (h : gmap jsstring jsstring) (k name v : jsstring) :
  lowercase_names h -> map lower name = name ->
  ci_eqb k name = true -> h !! k = Some v -> k = name.
Proof.
  intros Hh Hname Hci Hk. apply Hh in Hk. simpl in Hk.
  unfold ci_eqb in Hci. rewrite eqb_eq in Hci.
  apply (f_equal (map lower)) in Hci.
  rewrite !map_map in Hci.
  rewrite (map_ext _ lower lower_canon k) in Hci.
  rewrite (map_ext _ lower lower_canon name) in Hci.
  congruence.
Qed.

Lemma header_value_lookup (h : gmap jsstring jsstring) (v : jsstring) :
  lowercase_names h ->
  header_value h (lit "authorization") v <-> h !! lit "authorization" = Some v.
Proof.
  intros Hh. split.
  - intros (k & Hci & Hk).
    now rewrite <- (lowercase_key h k (lit "authorization") v Hh eq_refl Hci Hk).
  - intros Hk. exists (lit "authorization"). split; [reflexivity|assumption].
Qed.

Lemma capitalized_absent (h : gmap jsstring jsstring) :
  lowercase_names h -> str_field h (lit "Authorization") = VUndefined.
Proof.
  intros Hh. unfold str_field.
  destruct (h !! lit "Authorization") eqn:Hk; [|reflexivity].
  apply Hh in Hk. discriminate Hk.
Qed.

Lemma bearer_value_nonempty (v X : jsstring) : bearer_value v X -> v <> [].
Proof.
  intros (p & -> & Hp & _). apply ci_eqb_length in Hp.
  destruct p; [discriminate|discriminate].
Qed.

(** C3.  On the header collection Node delivers (names in lower case):
    when the Authorization header has a value [Bearer X], the prefix in
    any case and [X] a token (at least one code unit, no line terminator,
    white space allowed), the extractor returns exactly [X]; when the header is
    absent or its value is not of that form, the extractor throws the
    missing-credential error.  Either way the trace of effects is the one
    it started from. *)
Theorem extractIdToken_bearer (request : request) (t : list event) :
  lowercase_names (headers request) ->
  (forall v X : jsstring,
      header_value (headers request) (lit "authorization") v ->
      bearer_value v X ->
      extractIdToken request t = (Ok X, t))
  /\ ((forall v : jsstring,
          header_value (headers request) (lit "authorization") v ->
          forall X, ~ bearer_value v X) ->
      extractIdToken request t = (Throw missing_credential, t)).
Proof.
  intros Hh. unfold extractIdToken.
  rewrite (capitalized_absent _ Hh). split.
  - intros v X Hv HX. apply (header_value_lookup _ _ Hh) in Hv.
    unfold str_field. rewrite Hv.
    pose proof (bearer_value_nonempty _ _ HX) as Hne.
    apply match_bearer_spec in HX.
    destruct v as [|c v]; [congruence|].
    unfold Eff.bind, Eff.ret. cbn -[match_bearer]. now rewrite HX.
  - intros Hno. unfold str_field.
    destruct (headers request !! lit "authorization") as [v|] eqn:Hv;
      [|reflexivity].
    destruct v as [|c v]; [reflexivity|].
    unfold Eff.bind, Eff.ret. cbn -[match_bearer].
    destruct (match_bearer (c :: v)) as [X|] eqn:HX; [|reflexivity].
    apply match_bearer_spec in HX.
    apply (header_value_lookup _ _ Hh) in Hv. now apply Hno in HX.
Qed.

Lemma sample_lowercase (authorization : string) (id body : jsval) :
  lowercase_names (headers (Sample.req authorization id body)).
Proof. apply map_Forall_singleton. reflexivity. Qed.

Lemma extractIdToken_bearer_witness :
  extractIdToken (Sample.req "Bearer abc" VUndefined VUndefined) []
  = (Ok (lit "abc"), [])
  /\ extractIdToken (Sample.req "Basic abc" VUndefined VUndefined) []
     = (Throw missing_credential, []).
Proof.
  split.
  - apply (proj1 (extractIdToken_bearer _ [] (sample_lowercase _ _ _))
             (lit "Bearer abc") (lit "abc")).
    + exists (lit "authorization"). split; reflexivity.
    + exists (lit "Bearer "). repeat split. discriminate.
  - apply (proj2 (extractIdToken_bearer _ [] (sample_lowercase _ _ _))).
    intros v Hv X HX.
    apply (header_value_lookup _ _ (sample_lowercase _ _ _)) in Hv.
    vm_compute in Hv. injection Hv as <-.
    apply match_bearer_spec in HX. discriminate HX.
Defined.

(** The second spelling the extractor reads: on an object that holds the
    header under the key [Authorization] and nothing usable under
    [authorization], the value is taken from there. *)
Lemma extractIdToken_capitalized (request : request) (v X : jsstring)
      (t : list event) :
  Js.truthy (str_field (headers request) (lit "authorization")) = false ->
  headers request !! lit "Authorization" = Some v ->
  bearer_value v X ->
  extractIdToken request t = (Ok X, t).
Proof.
  intros Hlow Hcap HX. unfold extractIdToken.
  rewrite (or_falsy _ _ Hlow). unfold str_field at 1. rewrite Hcap.
  pose proof (bearer_value_nonempty _ _ HX) as Hne.
  apply match_bearer_spec in HX.
  destruct v as [|c v]; [congruence|].
  unfold Eff.bind, Eff.ret. cbn -[match_bearer]. now rewrite HX.
Qed.

(** C9.  A token the extractor returns is never the empty string: the
    pattern asks for at least one code unit after the space that follows
    [Bearer], so that the header values [Bearer ] (with the space) and
    [Bearer] are refused with the missing-credential error. *)
Theorem extractIdToken_token_nonempty (request : request) (t : list event) :
  (forall (token : jsstring) (t' : list event),
      extractIdToken request t = (Ok token, t') -> token <> [])
  /\ (forall v : jsstring,
         headers request !! lit "authorization" = Some v ->
         v = lit "Bearer " \/ v = lit "Bearer" ->
         extractIdToken request t = (Throw missing_credential, t)).
Proof.
  unfold extractIdToken, Eff.bind, Eff.ret, Eff.throw. split.
  - intros token t'.
    destruct (Js.or _ _) as [| |b|nz sh|s|items|fs]; try discriminate.
    destruct (match_bearer s) as [X|] eqn:HX; [|discriminate].
    intros [= <- <-]. apply match_bearer_spec in HX.
    now destruct HX as (_ & _ & _ & Hne & _).
  - intros v Hv Hcase. unfold str_field. rewrite Hv.
    destruct Hcase as [-> | ->]; reflexivity.
Qed.

Lemma extractIdToken_token_nonempty_witness :
  lit "abc" <> []
  /\ extractIdToken (Sample.req "Bearer " VUndefined VUndefined) []
     = (Throw missing_credential, []).
Proof.
  split.
  - apply (proj1 (extractIdToken_token_nonempty
                    (Sample.req "Bearer abc" VUndefined VUndefined) [])
             (lit "abc") []).
    reflexivity.
  - apply (proj2 (extractIdToken_token_nonempty
                    (Sample.req "Bearer " VUndefined VUndefined) [])
             (lit "Bearer ")); [reflexivity | left; reflexivity].
Defined.

(** ** [summarizeNote] *)

Ltac handler_steps :=
  cbv beta iota zeta
      delta [Eff.run Eff.bind Eff.emit Eff.ret Eff.attempt Eff.try_catch
             Eff.await Eff.lift Eff.throw verify call_trim app].

Lemma use_mock_spec (env0 env : gmap jsstring jsstring) :
  use_mock env0 env = true
  <-> force_mock env \/ (isEmulator env0 = true /\ no_api_key env).
Proof.
  unfold use_mock, force_mock, no_api_key, Obj.strict_eq_str, str_field.
  rewrite orb_true_iff, andb_true_iff, negb_true_iff.
  destruct (env !! lit "USE_MOCK_OPENAI") as [x|].
  - rewrite eqb_eq. split; (intros [H|H]; [left|right]); congruence.
  - split; (intros [H|H]; [discriminate|right]); assumption.
Qed.

Lemma api_key_live (env0 env : gmap jsstring jsstring) :
  ~ force_mock env -> Js.truthy (apiKey env) = true ->
  use_mock env0 env = false.
Proof.
  intros Hf Hk. apply not_true_is_false. intros H.
  apply use_mock_spec in H as [H|[_ H]]; [tauto|].
  unfold no_api_key in H. congruence.
Qed.

(** The handler up to the extraction of the text: what remains to run is
    the rest of the [try] block, on the trace [trace_to_note]. *)
Lemma summarizeNote_to_note (w : world) (env0 env : gmap jsstring jsstring)
      (request : request) (idToken uid noteId : jsstring) (data : jsval) :
  reaches_note w request idToken uid noteId data ->
  Eff.run (summarizeNote w env0 env request)
  = Eff.try_catch
      (let text := note_text data in
       if negb (Js.truthy text)
       then Eff.ret (json_error 400
              (lit "Note has no text field (expected content/text/body)"))
       else
       if use_mock env0 env
       then
         let* summary := Eff.lift (mockSummarize text) in
         Eff.ret {| code := 200;
                    sent := Json (VObj [(lit "id", VStr noteId);
                                        (lit "summary", VStr summary);
                                        (lit "mocked", VBool true)]) |}
       else
       if negb (Js.truthy (apiKey env))
       then Eff.ret (json_error 500 (lit "OpenAI API key not configured"))
       else
       let* init := Eff.lift (completion_request env text) in
       let* openAiResp := Eff.await (CallFetch init) (fetch w init) in
       if negb (ok openAiResp)
       then
         let* errText := Eff.lift (read_text openAiResp) in
         let* _ := Eff.emit (LogBackendError (lit "OpenAI API error")
                               (status openAiResp) errText) in
         Eff.ret {| code := 502;
                    sent := Json (VObj [(lit "error",
                                         VStr (lit "Failed to summarize"));
                                        (lit "details", VStr errText)]) |}
       else
         let* aiJson := Eff.lift (read_json openAiResp) in
         let* content := choice_content aiJson in
         let summary := Js.or content (VStr (lit "(No summary)")) in
         Eff.ret {| code := 200;
                    sent := Json (VObj [(lit "id", VStr noteId);
                                        (lit "summary", summary)]) |})
      (fun err =>
       let* _ := Eff.emit (LogError (lit "summarizeNote failure")
                                    (exn_to_string err)) in
       Eff.ret (json_error 500 (lit "Internal error")))
      (trace_to_note idToken uid noteId).
Proof.
  intros [(s & Hs & Ht) Hne Htok Hver (snap & Hn & Hex & Hdata)].
  apply is_empty_false in Hne.
  unfold summarizeNote, trace_to_note. handler_steps.
  rewrite Hs, Ht, Hne, Htok, Hver, Hn, Hex, Hdata. reflexivity.
Qed.

Lemma choice_content_pure (aiJson : jsval) (t : list event) :
  choice_content aiJson t = (fst (choice_content aiJson []), t).
Proof.
  unfold choice_content. handler_steps.
  repeat match goal with
         | |- context [if ?b then _ else _] => destruct b; try reflexivity
         end.
  now destruct (Js.prop _ _).
Qed.

Lemma strict_eq_field (m : gmap jsstring jsstring) (k v : jsstring) :
  Obj.strict_eq_str (str_field m k) v = true <-> m !! k = Some v.
Proof.
  unfold Obj.strict_eq_str, str_field. destruct (m !! k) as [x|].
  - rewrite eqb_eq. split; congruence.
  - split; discriminate.
Qed.

Lemma truthy_field (m : gmap jsstring jsstring) (k : jsstring) :
  Js.truthy (str_field m k) = true
  <-> exists v, m !! k = Some v /\ v <> [].
Proof.
  unfold str_field. destruct (m !! k) as [x|]; simpl.
  - split.
    + intros H. exists x. split; [reflexivity|]. now destruct x.
    + intros (v & [= ->] & Hv). now destruct v.
  - split; [discriminate|]. intros (v & H & _). discriminate.
Qed.

Lemma isEmulator_spec (env0 : gmap jsstring jsstring) :
  isEmulator env0 = true <-> running_in_emulator env0.
Proof.
  unfold isEmulator, running_in_emulator.
  rewrite !orb_true_iff, strict_eq_field, !truthy_field. tauto.
Qed.

Lemma use_mock_running (env0 env : gmap jsstring jsstring) :
  use_mock env0 env = true
  <-> force_mock env \/ (running_in_emulator env0 /\ no_api_key env).
Proof. now rewrite use_mock_spec, isEmulator_spec. Qed.

(** C1, as the code has it.  For a request that reaches the summarization
    decision, when the force-mock flag is set, or the process runs in the
    emulator and no API key is configured: if [mockSummarize] returns a
    summary for the text, the handler answers 200 with the identifier,
    that summary and [mocked: true]; if [mockSummarize] throws (the text
    has no conversion to a string), the handler answers 500 with the error
    [Internal error]; either way its trace holds no call to the
    summarization backend.  On the live path, when the request is built,
    the backend answers with success and the handler can read the reply,
    the answer is 200 with the identifier and the summary and has no
    [mocked] field. *)
Theorem summarizeNote_mock_decision
        (w : world) (env0 env : gmap jsstring jsstring) (request : request)
        (idToken uid noteId : jsstring) (text : jsval) :
  reaches_decision w request idToken uid noteId text ->
  (force_mock env \/ (running_in_emulator env0 /\ no_api_key env) ->
   (forall summary : jsstring,
       mockSummarize text = Ok summary ->
       Eff.run (summarizeNote w env0 env request)
       = (Ok {| code := 200;
                sent := Json (VObj [(lit "id", VStr noteId);
                                    (lit "summary", VStr summary);
                                    (lit "mocked", VBool true)]) |},
          trace_to_note idToken uid noteId))
   /\ (forall e : exn,
          mockSummarize text = Throw e ->
          fst (Eff.run (summarizeNote w env0 env request))
          = Ok (json_error 500 (lit "Internal error")))
   /\ existsb is_fetch (snd (Eff.run (summarizeNote w env0 env request)))
      = false)
  /\ (forall (rq : fetch_request) (resp : fetch_response)
             (aiJson content : jsval),
         ~ (force_mock env \/ (running_in_emulator env0 /\ no_api_key env)) ->
         Js.truthy (apiKey env) = true ->
         completion_request env text = Ok rq ->
         fetch w rq = Ok resp ->
         ok resp = true ->
         read_json resp = Ok aiJson ->
         fst (choice_content aiJson []) = Ok content ->
         let answer := VObj [(lit "id", VStr noteId);
                             (lit "summary",
                              Js.or content (VStr (lit "(No summary)")))] in
         fst (Eff.run (summarizeNote w env0 env request))
         = Ok {| code := 200; sent := Json answer |}
         /\ Obj.has_key (lit "mocked") answer = false).
Proof.
  intros (data & Hreach & Htext & Htruthy).
  rewrite (summarizeNote_to_note _ _ _ _ _ _ _ _ Hreach).
  rewrite Htext. cbv zeta. split.
  - intros Hmock. apply use_mock_running in Hmock.
    handler_steps. rewrite Htruthy, Hmock. cbn [negb]. cbv beta iota.
    repeat split.
    + intros summary Hs. now rewrite Hs.
    + intros e He. now rewrite He.
    + now destruct (mockSummarize text).
  - intros rq resp aiJson content Hlive Hkey Hrq Hfetch Hok Hjson Hcontent.
    assert (Hmock : use_mock env0 env = false).
    { apply not_true_is_false. intros H. now apply use_mock_running in H. }
    split; [|reflexivity].
    handler_steps. rewrite Htruthy, Hmock, Hkey. cbn [negb]. cbv beta iota.
    rewrite Hrq. cbv beta iota.
    rewrite Hfetch. cbv beta iota. rewrite Hok. cbn [negb]. cbv beta iota.
    rewrite Hjson. cbv beta iota.
    rewrite (choice_content_pure aiJson), Hcontent. reflexivity.
Qed.

(** C7.  For a request that reaches the summarization decision on the
    live path (no force-mock flag, an API key configured): when the
    request that was built is answered by the backend with a status that
    is not a success and the body [d], the handler answers 502 with the
    error [Failed to summarize] and [details] equal to [d]; the trace
    holds one call to the backend. *)
Theorem summarizeNote_backend_failure
        (w : world) (env0 env : gmap jsstring jsstring) (request : request)
        (idToken uid noteId : jsstring) (text : jsval)
        (rq : fetch_request) (resp : fetch_response) (d : jsstring) :
  reaches_decision w request idToken uid noteId text ->
  ~ force_mock env ->
  Js.truthy (apiKey env) = true ->
  completion_request env text = Ok rq ->
  fetch w rq = Ok resp ->
  ok resp = false ->
  read_text resp = Ok d ->
  Eff.run (summarizeNote w env0 env request)
  = (Ok {| code := 502;
           sent := Json (VObj [(lit "error", VStr (lit "Failed to summarize"));
                               (lit "details", VStr d)]) |},
     trace_to_note idToken uid noteId
     ++ [CallFetch rq;
         LogBackendError (lit "OpenAI API error") (status resp) d])
  /\ length (List.filter is_fetch
               (snd (Eff.run (summarizeNote w env0 env request)))) = 1%nat.
Proof.
  intros (data & Hreach & Htext & Htruthy) Hflag Hkey Hrq Hfetch Hok Hbody.
  rewrite (summarizeNote_to_note _ _ _ _ _ _ _ _ Hreach).
  rewrite Htext. cbv zeta.
  handler_steps.
  rewrite Htruthy, (api_key_live env0 env Hflag Hkey), Hkey.
  cbn [negb]. cbv beta iota. rewrite Hrq. cbv beta iota.
  rewrite Hfetch. cbv beta iota.
  rewrite Hok. cbn [negb]. cbv beta iota. rewrite Hbody.
  split; reflexivity.
Qed.

(** C4.  The text of a note is the value of the first populated field
    among [content], [text] and [body], in that order; a request that gets
    to a note none of whose three fields is populated is answered 400 with
    the error [Note has no text field (expected content/text/body)], and
    the trace ends with the fetch of the note: nothing is summarized. *)
Theorem summarizeNote_text_field :
  (forall data : jsval,
      (populated (lit "content") data ->
       note_text data = Js.prop (lit "content") data)
      /\ (~ populated (lit "content") data ->
          populated (lit "text") data ->
          note_text data = Js.prop (lit "text") data)
      /\ (~ populated (lit "content") data ->
          ~ populated (lit "text") data ->
          populated (lit "body") data ->
          note_text data = Js.prop (lit "body") data))
  /\ (forall (w : world) (env0 env : gmap jsstring jsstring)
             (request : request) (idToken uid noteId : jsstring)
             (data : jsval),
         reaches_note w request idToken uid noteId data ->
         ~ populated (lit "content") data ->
         ~ populated (lit "text") data ->
         ~ populated (lit "body") data ->
         Eff.run (summarizeNote w env0 env request)
         = (Ok (json_error 400
                  (lit "Note has no text field (expected content/text/body)")),
            trace_to_note idToken uid noteId)).
Proof.
  unfold populated, note_text. split.
  - intros data. repeat split.
    + intros Hc. now rewrite !(or_truthy _ _ Hc).
    + intros Hc Ht. apply not_true_is_false in Hc.
      rewrite (or_falsy _ _ Hc). now rewrite !(or_truthy _ _ Ht).
    + intros Hc Ht Hb. apply not_true_is_false in Hc, Ht.
      rewrite (or_falsy _ _ Hc), (or_falsy _ _ Ht).
      now rewrite !(or_truthy _ _ Hb).
  - intros w env0 env request idToken uid noteId data Hreach Hc Ht Hb.
    rewrite (summarizeNote_to_note _ _ _ _ _ _ _ _ Hreach).
    apply not_true_is_false in Hc, Ht, Hb.
    unfold note_text.
    now rewrite (or_falsy _ _ Hc), (or_falsy _ _ Ht), (or_falsy _ _ Hb).
Qed.

(** C5.  The identifier comes from the query parameter [id] when it has a
    value, and from the field [id] of the body when the query parameter is
    absent (or empty); it is trimmed; when what remains is empty, the
    handler answers 400 with the error [Missing note id] after its first
    log line, before any credential is looked at and whatever the headers
    and the collaborators are. *)
Theorem summarizeNote_missing_id
        (w : world) (env0 env : gmap jsstring jsstring) (request : request) :
  (forall q : jsval,
      query request !! lit "id" = Some q -> Js.truthy q = true ->
      id_source request = q)
  /\ (query request !! lit "id" = None
      \/ query request !! lit "id" = Some (VStr []) ->
      id_source request
      = Js.or (Js.and (body request) (Js.prop (lit "id") (body request)))
              (VStr []))
  /\ (forall s : jsstring,
         id_source request = VStr s -> trim s = [] ->
         Eff.run (summarizeNote w env0 env request)
         = (Ok (json_error 400 (lit "Missing note id")),
            [LogInfo (lit "summarizeNote triggered")]))
  /\ (forall (idToken uid noteId : jsstring) (data : jsval),
         reaches_note w request idToken uid noteId data ->
         In (CallNoteGet uid noteId)
            (snd (Eff.run (summarizeNote w env0 env request)))).
Proof.
  repeat split.
  - intros q Hq Ht. unfold id_source, val_field. rewrite Hq. simpl.
    now rewrite !(or_truthy q _ Ht).
  - intros [H|H]; unfold id_source, val_field; now rewrite H.
  - intros s Hs Ht. unfold summarizeNote. handler_steps.
    rewrite Hs. cbv beta iota. now rewrite Ht.
  - intros idToken uid noteId data Hreach.
    rewrite (summarizeNote_to_note _ _ _ _ _ _ _ _ Hreach).
    unfold Eff.try_catch.
    match goal with
    | |- context [?m (trace_to_note ?a ?b ?c)] =>
        assert (Hext : exists r t', m (trace_to_note a b c)
                                    = (r, trace_to_note a b c ++ t'))
    end.
    { cbv zeta. handler_steps.
      repeat match goal with
             | |- context [if ?b then _ else _] => destruct b
             | |- context [match ?x with Ok _ => _ | Throw _ => _ end] =>
                 destruct x
             | |- context [choice_content ?a ?t] =>
                 rewrite (choice_content_pure a t)
             end;
        (eexists; eexists; unfold trace_to_note; cbn [app];
         match goal with
         | |- (_, ?l) = _ =>
             apply (f_equal (pair _)); reflexivity
         end). }
    destruct Hext as (r & t' & ->).
    destruct r; cbn [snd]; handler_steps; cbn [snd];
      unfold trace_to_note; cbn; tauto.
Qed.

(** C10.  A query parameter [id] that is a non-empty string of white
    space only is the identifier source whatever the body holds, and the
    handler answers 400 with the error [Missing note id]. *)
Theorem summarizeNote_blank_query_id
        (w : world) (env0 env : gmap jsstring jsstring) (request : request)
        (s : jsstring) :
  query request !! lit "id" = Some (VStr s) ->
  s <> [] ->
  blank s ->
  id_source request = VStr s
  /\ Eff.run (summarizeNote w env0 env request)
     = (Ok (json_error 400 (lit "Missing note id")),
        [LogInfo (lit "summarizeNote triggered")]).
Proof.
  intros Hq Hne Hblank.
  assert (Hs : id_source request = VStr s).
  { unfold id_source, val_field. rewrite Hq. simpl.
    assert (Ht : Js.truthy (VStr s) = true) by now destruct s.
    now rewrite !(or_truthy _ _ Ht). }
  split; [exact Hs|].
  apply trim_nil in Hblank.
  unfold summarizeNote. handler_steps.
  rewrite Hs. cbv beta iota. now rewrite Hblank.
Qed.

(** ** [getUserNotes] *)

(** C6.  In the listing handler a failure of the extraction of the
    credential, of its verification, or of the read of the store gives
    the same answer: 401 with the plain text [Unauthorized].  In the
    summarizing handler, once the identifier is there, a failure of the
    extraction or of the verification gives 401 with the JSON body
    [{error: "Unauthorized"}], which is another answer. *)
Theorem getUserNotes_failure_unauthorized (w : world) (request : request) :
  let unauthorized := {| code := 401; sent := Plain (lit "Unauthorized") |} in
  (forall e : exn,
      (forall t, extractIdToken request t = (Throw e, t)) ->
      fst (Eff.run (getUserNotes w request)) = Ok unauthorized)
  /\ (forall (idToken : jsstring) (e : exn),
         (forall t, extractIdToken request t = (Ok idToken, t)) ->
         verifyIdToken w idToken = Throw e ->
         fst (Eff.run (getUserNotes w request)) = Ok unauthorized)
  /\ (forall (idToken uid : jsstring) (e : exn),
         (forall t, extractIdToken request t = (Ok idToken, t)) ->
         verifyIdToken w idToken = Ok uid ->
         notes_get w uid = Throw e ->
         fst (Eff.run (getUserNotes w request)) = Ok unauthorized)
  /\ (forall (env0 env : gmap jsstring jsstring) (s : jsstring),
         id_source request = VStr s -> trim s <> [] ->
         (exists e, forall t, extractIdToken request t = (Throw e, t))
         \/ (exists idToken e,
                (forall t, extractIdToken request t = (Ok idToken, t))
                /\ verifyIdToken w idToken = Throw e) ->
         fst (Eff.run (summarizeNote w env0 env request))
         = Ok (json_error 401 (lit "Unauthorized")))
  /\ json_error 401 (lit "Unauthorized") <> unauthorized.
Proof.
  cbv zeta. repeat split.
  - intros e He. unfold getUserNotes. handler_steps. now rewrite He.
  - intros idToken e Htok Hver. unfold getUserNotes. handler_steps.
    now rewrite Htok, Hver.
  - intros idToken uid e Htok Hver Hget. unfold getUserNotes. handler_steps.
    now rewrite Htok, Hver, Hget.
  - intros env0 env s Hs Hne Hfail. apply is_empty_false in Hne.
    unfold summarizeNote. handler_steps. rewrite Hs. cbv beta iota.
    rewrite Hne.
    destruct Hfail as [(e & He) | (idToken & e & Htok & Hver)].
    + now rewrite He.
    + now rewrite Htok, Hver.
  - discriminate.
Qed.

(** ** The theorems at sample requests *)

Lemma sample_reaches_note (backend : fetch_response) (body : jsval) :
  reaches_note (Sample.w backend)
               (Sample.req "Bearer abc" (VStr (lit " n1 ")) body)
               (lit "abc") (lit "u1") (lit "n1") (snap_data Sample.note).
Proof.
  split.
  - exists (lit " n1 "). split; reflexivity.
  - discriminate.
  - intros t. reflexivity.
  - reflexivity.
  - exists Sample.note. repeat split.
Qed.

Lemma sample_reaches_decision (backend : fetch_response) (body : jsval) :
  reaches_decision (Sample.w backend)
                   (Sample.req "Bearer abc" (VStr (lit " n1 ")) body)
                   (lit "abc") (lit "u1") (lit "n1")
                   (VStr (lit "Hi there. More.")).
Proof.
  exists (snap_data Sample.note). split; [apply sample_reaches_note|].
  split; reflexivity.
Qed.

Lemma sample_reaches_empty_note (backend : fetch_response) :
  reaches_note (Sample.w backend)
               (Sample.req "Bearer abc" (VStr (lit "n2")) VUndefined)
               (lit "abc") (lit "u1") (lit "n2")
               (snap_data Sample.empty_note_doc).
Proof.
  split.
  - exists (lit "n2"). split; reflexivity.
  - discriminate.
  - intros t. reflexivity.
  - reflexivity.
  - exists Sample.empty_note_doc. repeat split.
Qed.

Lemma sample_reaches_odd (backend : fetch_response) :
  reaches_decision (Sample.odd_world backend)
                   (Sample.req "Bearer abc" (VStr (lit "n1")) VUndefined)
                   (lit "abc") (lit "u1") (lit "n1") Sample.odd_text.
Proof.
  exists (snap_data Sample.odd_note). split; [|split; reflexivity].
  split.
  - exists (lit "n1"). split; reflexivity.
  - discriminate.
  - intros t. reflexivity.
  - reflexivity.
  - exists Sample.odd_note. repeat split.
Qed.

Lemma sample_live_path :
  ~ (force_mock Sample.live_env
     \/ (running_in_emulator ∅ /\ no_api_key Sample.live_env)).
Proof. intros [H|[_ H]]; vm_compute in H; discriminate. Qed.

Lemma sample_emulator_path :
  running_in_emulator Sample.emulator_env /\ no_api_key ∅.
Proof. split; [left|]; reflexivity. Qed.

Lemma sample_request_built (text : string) :
  exists rq, completion_request Sample.live_env (VStr (lit text)) = Ok rq.
Proof. eexists. reflexivity. Qed.

Lemma summarizeNote_mock_decision_witness :
  Eff.run (summarizeNote (Sample.w (Sample.reply true "" Sample.completion))
                         ∅ Sample.mock_env
                         (Sample.req "Bearer abc" (VStr (lit " n1 "))
                                     VUndefined))
  = (Ok {| code := 200;
           sent := Json (VObj [(lit "id", VStr (lit "n1"));
                               (lit "summary",
                                VStr (lit "Resumen: Hi there."));
                               (lit "mocked", VBool true)]) |},
     trace_to_note (lit "abc") (lit "u1") (lit "n1"))
  /\ Eff.run (summarizeNote
                (Sample.w (Sample.reply true "" Sample.completion))
                Sample.emulator_env ∅
                (Sample.req "Bearer abc" (VStr (lit " n1 ")) VUndefined))
     = (Ok {| code := 200;
              sent := Json (VObj [(lit "id", VStr (lit "n1"));
                                  (lit "summary",
                                   VStr (lit "Resumen: Hi there."));
                                  (lit "mocked", VBool true)]) |},
        trace_to_note (lit "abc") (lit "u1") (lit "n1"))
  /\ fst (Eff.run (summarizeNote
                     (Sample.odd_world
                        (Sample.reply true "" Sample.completion))
                     ∅ Sample.mock_env
                     (Sample.req "Bearer abc" (VStr (lit "n1")) VUndefined)))
     = Ok (json_error 500 (lit "Internal error"))
  /\ fst (Eff.run (summarizeNote
                     (Sample.w (Sample.reply true "" Sample.completion))
                     ∅ Sample.live_env
                     (Sample.req "Bearer abc" (VStr (lit " n1 "))
                                 VUndefined)))
     = Ok {| code := 200;
             sent := Json (VObj [(lit "id", VStr (lit "n1"));
                                 (lit "summary", VStr (lit "Short."))]) |}.
Proof.
  split; [|split; [|split]].
  - apply (proj1 (proj1 (summarizeNote_mock_decision _ ∅ Sample.mock_env
                           _ _ _ _ _ (sample_reaches_decision _ VUndefined))
                    (or_introl eq_refl))).
    reflexivity.
  - apply (proj1 (proj1 (summarizeNote_mock_decision
                           _ Sample.emulator_env ∅
                           _ _ _ _ _ (sample_reaches_decision _ VUndefined))
                    (or_intror sample_emulator_path))).
    reflexivity.
  - apply (proj1 (proj2 (proj1 (summarizeNote_mock_decision
                                  _ ∅ Sample.mock_env
                                  _ _ _ _ _ (sample_reaches_odd _))
                           (or_introl eq_refl)))
             cannot_convert).
    reflexivity.
  - destruct (sample_request_built "Hi there. More.") as (rq & Hrq).
    apply (proj2 (summarizeNote_mock_decision _ ∅ Sample.live_env _ _ _ _ _
                    (sample_reaches_decision _ VUndefined))
             rq (Sample.reply true "" Sample.completion) Sample.completion
             (VStr (lit "Short.")));
      try reflexivity; [apply sample_live_path | exact Hrq].
Defined.

(** C1, as the specification words it, fails on a note whose text is a
    map with a field [toString]: the request reaches the summarization
    decision with the force-mock flag set, [mockSummarize] throws on the
    text, and the handler answers 500 with the error [Internal error], not
    200 with a mocked summary. *)
Lemma summarizeNote_mock_text_without_string :
  let w := Sample.odd_world (Sample.reply true "" Sample.completion) in
  let request := Sample.req "Bearer abc" (VStr (lit "n1")) VUndefined in
  reaches_decision w request (lit "abc") (lit "u1") (lit "n1") Sample.odd_text
  /\ force_mock Sample.mock_env
  /\ mockSummarize Sample.odd_text = Throw cannot_convert
  /\ fst (Eff.run (summarizeNote w ∅ Sample.mock_env request))
     = Ok (json_error 500 (lit "Internal error"))
  /\ existsb is_fetch (snd (Eff.run (summarizeNote w ∅ Sample.mock_env
                                                   request)))
     = false
  /\ code (json_error 500 (lit "Internal error")) <> 200.
Proof.
  cbv zeta. split; [apply sample_reaches_odd|].
  repeat split; try reflexivity. discriminate.
Qed.

Lemma summarizeNote_backend_failure_witness :
  fst (Eff.run (summarizeNote
                  (Sample.w (Sample.reply false "rate limited" VNull))
                  ∅ Sample.live_env
                  (Sample.req "Bearer abc" (VStr (lit " n1 ")) VUndefined)))
  = Ok {| code := 502;
          sent := Json (VObj [(lit "error", VStr (lit "Failed to summarize"));
                              (lit "details", VStr (lit "rate limited"))]) |}.
Proof.
  destruct (sample_request_built "Hi there. More.") as (rq & Hrq).
  apply (f_equal fst
           (proj1 (summarizeNote_backend_failure
                     (Sample.w (Sample.reply false "rate limited" VNull))
                     ∅ Sample.live_env _ _ _ _ _ rq
                     (Sample.reply false "rate limited" VNull)
                     (lit "rate limited")
                     (sample_reaches_decision _ VUndefined)
                     ltac:(intros H; vm_compute in H; discriminate)
                     eq_refl Hrq eq_refl eq_refl eq_refl))).
Defined.

Lemma summarizeNote_text_field_witness :
  note_text (snap_data Sample.note) = VStr (lit "Hi there. More.")
  /\ fst (Eff.run (summarizeNote
                     (Sample.w (Sample.reply true "" Sample.completion))
                     ∅ Sample.mock_env
                     (Sample.req "Bearer abc" (VStr (lit "n2")) VUndefined)))
     = Ok (json_error 400
             (lit "Note has no text field (expected content/text/body)")).
Proof.
  split.
  - apply (proj1 (proj2 (proj1 summarizeNote_text_field
                           (snap_data Sample.note)))).
    + discriminate.
    + reflexivity.
  - apply (f_equal fst
             (proj2 summarizeNote_text_field _ ∅ Sample.mock_env _ _ _ _ _
                    (sample_reaches_empty_note _)
                    ltac:(discriminate) ltac:(discriminate)
                    ltac:(discriminate))).
Defined.

Lemma summarizeNote_missing_id_witness :
  id_source (Sample.req "Bearer abc" (VStr (lit "n1"))
                        (VObj [(lit "id", VStr (lit "other"))]))
  = VStr (lit "n1")
  /\ id_source {| headers := ∅; query := ∅;
                  body := VObj [(lit "id", VStr (lit "n1"))] |}
     = VStr (lit "n1")
  /\ Eff.run (summarizeNote
                (Sample.w (Sample.reply true "" Sample.completion))
                ∅ Sample.mock_env
                {| headers := ∅; query := ∅;
                   body := VObj [(lit "id", VStr (lit "  "))] |})
     = (Ok (json_error 400 (lit "Missing note id")),
        [LogInfo (lit "summarizeNote triggered")])
  /\ Eff.run (summarizeNote
                (Sample.w (Sample.reply true "" Sample.completion))
                ∅ Sample.mock_env
                {| headers := ∅; query := ∅; body := VUndefined |})
     = (Ok (json_error 400 (lit "Missing note id")),
        [LogInfo (lit "summarizeNote triggered")])
  /\ In (CallNoteGet (lit "u1") (lit "n1"))
        (snd (Eff.run (summarizeNote
                         (Sample.w (Sample.reply true "" Sample.completion))
                         ∅ Sample.mock_env
                         (Sample.req "Bearer abc" (VStr (lit " n1 "))
                                     VUndefined)))).
Proof.
  split; [|split; [|split; [|split]]].
  - apply (proj1 (summarizeNote_missing_id
                    (Sample.w (Sample.reply true "" Sample.completion))
                    ∅ ∅ _)); reflexivity.
  - exact (proj1 (proj2 (summarizeNote_missing_id
                           (Sample.w (Sample.reply true "" Sample.completion))
                           ∅ ∅
                           {| headers := ∅; query := ∅;
                              body := VObj [(lit "id", VStr (lit "n1"))] |}))
             (or_introl eq_refl)).
  - apply (proj1 (proj2 (proj2 (summarizeNote_missing_id _ _ _ _)))
             (lit "  ")); reflexivity.
  - apply (proj1 (proj2 (proj2 (summarizeNote_missing_id _ _ _ _)))
             []); reflexivity.
  - apply (proj2 (proj2 (proj2 (summarizeNote_missing_id _ _ _ _)))
             (lit "abc") (lit "u1") (lit "n1") (snap_data Sample.note)).
    apply sample_reaches_note.
Defined.

Lemma summarizeNote_blank_query_id_witness :
  Eff.run (summarizeNote
             (Sample.w (Sample.reply true "" Sample.completion))
             ∅ Sample.mock_env
             (Sample.req "Bearer abc" (VStr (lit "  "))
                         (VObj [(lit "id", VStr (lit "n1"))])))
  = (Ok (json_error 400 (lit "Missing note id")),
     [LogInfo (lit "summarizeNote triggered")]).
Proof.
  apply (summarizeNote_blank_query_id _ _ _ _ (lit "  "));
    [reflexivity | discriminate | reflexivity].
Defined.

Lemma getUserNotes_failure_unauthorized_witness :
  fst (Eff.run (getUserNotes
                  (Sample.w (Sample.reply true "" Sample.completion))
                  (Sample.req "Basic abc" VUndefined VUndefined)))
  = Ok {| code := 401; sent := Plain (lit "Unauthorized") |}
  /\ fst (Eff.run (getUserNotes
                     (Sample.w (Sample.reply true "" Sample.completion))
                     (Sample.req "Bearer xyz" VUndefined VUndefined)))
     = Ok {| code := 401; sent := Plain (lit "Unauthorized") |}
  /\ fst (Eff.run (getUserNotes
                     (Sample.w (Sample.reply true "" Sample.completion))
                     (Sample.req "Bearer def" VUndefined VUndefined)))
     = Ok {| code := 401; sent := Plain (lit "Unauthorized") |}
  /\ fst (Eff.run (summarizeNote
                     (Sample.w (Sample.reply true "" Sample.completion))
                     ∅ Sample.mock_env
                     (Sample.req "Bearer xyz" (VStr (lit "n1")) VUndefined)))
     = Ok (json_error 401 (lit "Unauthorized")).
Proof.
  split; [|split; [|split]].
  - apply (proj1 (getUserNotes_failure_unauthorized _ _) missing_credential).
    intros t. reflexivity.
  - apply (proj1 (proj2 (getUserNotes_failure_unauthorized _ _))
             (lit "xyz") (Failure (lit "invalid token"))).
    + intros t. reflexivity.
    + reflexivity.
  - apply (proj1 (proj2 (proj2 (getUserNotes_failure_unauthorized _ _)))
             (lit "def") (lit "u2") (Failure (lit "unavailable"))).
    + intros t. reflexivity.
    + reflexivity.
    + reflexivity.
  - apply (proj1 (proj2 (proj2 (proj2
             (getUserNotes_failure_unauthorized _ _))))
             ∅ Sample.mock_env (lit "n1")).
    + reflexivity.
    + discriminate.
    + right. exists (lit "xyz"), (Failure (lit "invalid token")).
      split; [intros t|]; reflexivity.
Defined.

(** * Further properties of the code *)

(** ** [mockSummarize]: size, shape and stability of the summary *)

Lemma clip_length (s : jsstring) : (length (clip s) <= 241)%nat.
Proof.
  unfold clip, slice0, ellipsis.
  destruct (Nat.ltb_spec 240 (length s)).
  - rewrite length_app, length_take. cbn [length]. lia.
  - lia.
Qed.

Lemma clip_nonempty (s : jsstring) : s <> [] -> clip s <> [].
Proof.
  unfold clip, ellipsis. intros Hs.
  destruct (240 <? length s)%nat; [|exact Hs].
  intros H. apply app_eq_nil in H as [_ H]. discriminate.
Qed.

(** What [mockSummarize] returns for a text whose normalized form is not
    empty. *)
Lemma mockSummarize_segment (text : jsval) (t : jsstring) :
  normalize text = Ok t -> t <> [] ->
  mockSummarize text = Ok (label ++ clip (code_segment t)).
Proof.
  intros Ht Hne. unfold mockSummarize. rewrite Ht.
  apply is_empty_false in Hne as He. rewrite He.
  pose proof (split_head_nonempty _ Hne) as Hh.
  apply is_empty_false in Hh. rewrite Hh.
  now rewrite split_head_code_segment.
Qed.

Lemma code_segment_nonempty (t : jsstring) : t <> [] -> code_segment t <> [].
Proof. rewrite <- split_head_code_segment. apply split_head_nonempty. Qed.

(** [mockSummarize] returns exactly when the normalization does. *)
Lemma mockSummarize_returns (text : jsval) (summary : jsstring) :
  mockSummarize text = Ok summary ->
  exists t, normalize text = Ok t
            /\ ((t = [] /\ summary = empty_note)
                \/ (t <> [] /\ summary = label ++ clip (code_segment t))).
Proof.
  intros H. destruct (normalize text) as [t|e] eqn:Ht.
  - exists t. split; [reflexivity|]. destruct t as [|c r].
    + left. unfold mockSummarize in H. rewrite Ht in H.
      now injection H as <-.
    + right. split; [discriminate|].
      rewrite (mockSummarize_segment _ _ Ht) in H by discriminate.
      now injection H as <-.
  - unfold mockSummarize in H. rewrite Ht in H. discriminate.
Qed.

(** [mockSummarize] throws only what the conversion of a truthy text to
    a string throws. *)
Lemma mockSummarize_throws (text : jsval) (e : exn) :
  mockSummarize text = Throw e ->
  Js.truthy text = true /\ Js.to_string text = Throw e.
Proof.
  unfold mockSummarize, normalize. destruct (Js.truthy text) eqn:Ht.
  - rewrite (or_truthy _ _ Ht).
    destruct (Js.to_string text) as [str|e']; [|now intros [= ->]].
    now destruct (is_empty _).
  - rewrite (or_falsy _ _ Ht). cbn [Js.to_string].
    now destruct (is_empty _).
Qed.

(** X1.  Whatever the text, [mockSummarize] returns a summary of between
    10 and 250 code units (the label and at most 240 code units of text
    with the ellipsis, or the twelve code units of the empty-note string),
    or the text is truthy and has no conversion to a string, and
    [mockSummarize] throws what the conversion throws. *)
Theorem mockSummarize_length (text : jsval) :
  match mockSummarize text with
  | Ok summary => (10 <= length summary <= 250)%nat
  | Throw e => Js.truthy text = true /\ Js.to_string text = Throw e
  end.
Proof.
  destruct (mockSummarize text) as [summary|e] eqn:H;
    [|now apply mockSummarize_throws].
  apply mockSummarize_returns in H as (t & Ht & [[-> ->] | [Hne ->]]).
  - simpl. lia.
  - rewrite length_app. change (length label) with 9%nat.
    pose proof (clip_length (code_segment t)).
    pose proof (clip_nonempty _ (code_segment_nonempty _ Hne)) as Hc.
    destruct (clip (code_segment t)); [congruence|].
    simpl in *. lia.
Qed.

(** X2.  The empty-note string is the summary of blank input only: a text
    is summarized by it exactly when its normalized form is empty, which
    every falsy value (undefined, null, false, zero, the empty string)
    has. *)
Theorem mockSummarize_empty_note_only (text : jsval) :
  (mockSummarize text = Ok empty_note <-> normalize text = Ok [])
  /\ (Js.truthy text = false -> mockSummarize text = Ok empty_note).
Proof.
  assert (Hiff : mockSummarize text = Ok empty_note
                 <-> normalize text = Ok []).
  { split.
    - intros H.
      apply mockSummarize_returns in H as (t & Ht & [[-> _] | [_ H]]).
      + exact Ht.
      + discriminate H.
    - intros H. unfold mockSummarize. now rewrite H. }
  split; [exact Hiff|].
  intros Hf. apply Hiff. unfold normalize. now rewrite (or_falsy _ _ Hf).
Qed.

Lemma mockSummarize_empty_note_only_witness :
  mockSummarize VNull = Ok empty_note
  /\ mockSummarize (VNum false (lit "0")) = Ok empty_note.
Proof.
  split.
  - apply (proj2 (mockSummarize_empty_note_only VNull)). reflexivity.
  - apply (proj2 (mockSummarize_empty_note_only (VNum false (lit "0")))).
    reflexivity.
Defined.

Lemma drop_spaces_id (s : jsstring) :
  (forall c, head s = Some c -> is_space c = false) -> drop_spaces s = s.
Proof.
  destruct s as [|c r]; [reflexivity|]. intros H. simpl.
  now rewrite (H c eq_refl).
Qed.

Lemma trim_id (s : jsstring) :
  (forall c, head s = Some c -> is_space c = false) ->
  (forall c, last s = Some c -> is_space c = false) ->
  trim s = s.
Proof.
  intros Hh Hl. unfold trim. rewrite (drop_spaces_id s Hh).
  rewrite drop_spaces_id; [apply rev_involutive|].
  intros c. rewrite head_rev. apply Hl.
Qed.

Lemma collapse_from_id (s : jsstring) (in_run : bool) :
  single_spaced in_run s = true -> collapse_from in_run s = s.
Proof.
  revert in_run. induction s as [|c r IH]; intros in_run; simpl;
    [reflexivity|].
  destruct (is_space c).
  - rewrite !andb_true_iff, negb_true_iff, N.eqb_eq.
    intros [[-> ->] Hr]. now rewrite (IH true Hr).
  - intros Hr. now rewrite (IH false Hr).
Qed.

(** X3.  Normalizing is idempotent, so that a summary does not change
    when the text is replaced by its normalized form: the summary depends
    on the words of the text and not on the white space around and
    between them. *)
Theorem normalize_idempotent (text : jsval) (t : jsstring) :
  normalize text = Ok t ->
  normalize (VStr t) = Ok t
  /\ mockSummarize (VStr t) = mockSummarize text.
Proof.
  intros Ht.
  assert (H : normalize (VStr t) = Ok t).
  { destruct (normalize_normalized _ _ Ht) as (Hh & Hl & Hs).
    rewrite normalize_string, (trim_id _ Hh Hl).
    unfold collapse_spaces. now rewrite collapse_from_id. }
  split; [exact H|]. unfold mockSummarize. now rewrite H, Ht.
Qed.

Lemma normalize_idempotent_witness :
  normalize (VStr (lit "a b.")) = Ok (lit "a b.")
  /\ mockSummarize (VStr (lit "a b."))
     = mockSummarize (VStr (lit "  a   b. ")).
Proof.
  apply (normalize_idempotent (VStr (lit "  a   b. ")) (lit "a b.")).
  reflexivity.
Defined.

Lemma split_head_from_prefix (s : jsstring) (prev : bool) :
  exists rest,
    s = split_head_from prev s ++ rest
    /\ (rest <> [] ->
        (split_head_from prev s = [] /\ prev = true)
        \/ exists p, last (split_head_from prev s) = Some p
                     /\ is_sentence_end p = true).
Proof.
  revert prev. induction s as [|c r IH]; intros prev; simpl.
  - exists []. split; [reflexivity|congruence].
  - destruct (prev && is_space c) eqn:Hp.
    + exists (c :: r). split; [reflexivity|]. intros _. left.
      apply andb_true_iff in Hp. tauto.
    + destruct (IH (is_sentence_end c)) as (rest & Hr & Hlast).
      exists rest. split; [simpl; congruence|].
      intros Hne. right. destruct (Hlast Hne) as [[Hnil Hc] | (p & Hp' & Hs)].
      * exists c. now rewrite Hnil.
      * exists p. split; [|exact Hs].
        destruct (split_head_from (is_sentence_end c) r); [discriminate|].
        exact Hp'.
Qed.

(** X4.  The summary of a text that is not blank is the label followed by
    a segment that starts the normalized text, cut to 240; when the
    segment is not the whole normalized text, it ends with one of [.!?]
    and what it leaves out begins with white space. *)
Theorem mockSummarize_sentence_boundary (text : jsval) (t : jsstring) :
  normalize text = Ok t ->
  t <> [] ->
  exists segment rest : jsstring,
    t = segment ++ rest
    /\ segment <> []
    /\ mockSummarize text = Ok (label ++ clip segment)
    /\ (rest <> [] ->
        (exists p, last segment = Some p /\ is_sentence_end p = true)
        /\ (exists c, head rest = Some c /\ is_space c = true)).
Proof.
  intros Ht Hne. exists (code_segment t).
  pose proof (mockSummarize_segment _ _ Ht Hne) as Hsum.
  pose proof (code_segment_nonempty _ Hne) as Hseg.
  rewrite <- split_head_code_segment in *.
  unfold split_head in *.
  assert (Hgen : forall s prev, exists rest,
             s = split_head_from prev s ++ rest
             /\ (rest <> [] -> exists c, head rest = Some c
                                         /\ is_space c = true)).
  { induction s as [|c r IH]; intros prev; simpl.
    - exists []. split; [reflexivity|congruence].
    - destruct (prev && is_space c) eqn:Hp.
      + exists (c :: r). split; [reflexivity|]. intros _. exists c.
        apply andb_true_iff in Hp. tauto.
      + destruct (IH (is_sentence_end c)) as (rest & Hr & Hc).
        exists rest. split; [simpl; congruence|exact Hc]. }
  destruct (split_head_from_prefix t false) as (rest & Hr & Hlast).
  destruct (Hgen t false) as (rest' & Hr' & Hspace).
  assert (rest' = rest) as ->.
  { rewrite Hr in Hr' at 1. now apply app_inv_head in Hr'. }
  exists rest. repeat split; try assumption.
  - destruct (Hlast H) as [[Hnil _] | Hp]; [congruence|exact Hp].
  - now apply Hspace.
Qed.

Lemma mockSummarize_sentence_boundary_witness :
  exists segment rest : jsstring,
    lit "One. Two." = segment ++ rest
    /\ segment <> []
    /\ mockSummarize (VStr (lit "  One.  Two. ")) = Ok (label ++ clip segment)
    /\ (rest <> [] ->
        (exists p, last segment = Some p /\ is_sentence_end p = true)
        /\ (exists c, head rest = Some c /\ is_space c = true)).
Proof.
  apply (mockSummarize_sentence_boundary (VStr (lit "  One.  Two. "))
                                         (lit "One. Two.")).
  - reflexivity.
  - discriminate.
Defined.

Lemma single_spaced_one_line (s : jsstring) (after_space : bool) :
  single_spaced after_space s = true -> one_line s.
Proof.
  unfold one_line. revert after_space.
  induction s as [|c r IH]; intros after_space; simpl; [constructor|].
  destruct (is_space c) eqn:Hc.
  - rewrite !andb_true_iff, N.eqb_eq. intros [[-> _] Hr].
    constructor; [reflexivity|]. now apply (IH true).
  - intros Hr. constructor; [congruence|]. now apply (IH false).
Qed.

Lemma one_line_app (a b : jsstring) : one_line a -> one_line b -> one_line (a ++ b).
Proof. unfold one_line. intros Ha Hb. apply Forall_app. now split. Qed.

Lemma one_line_take (n : nat) (s : jsstring) : one_line s -> one_line (take n s).
Proof. unfold one_line. apply Forall_take. Qed.

Lemma one_line_literal (s : jsstring) :
  forallb (fun c => negb (is_space c) || (c =? 32)) s = true -> one_line s.
Proof.
  unfold one_line. rewrite forallb_forall, Forall_forall.
  intros H c Hin Hc. apply list_elem_of_In in Hin.
  specialize (H c Hin). rewrite Hc in H. simpl in H. now apply N.eqb_eq.
Qed.

(** X5.  A summary is one line: the only white space it holds is U+0020,
    whatever line breaks, tabs or other spaces the text has.  No summary
    is returned only for a truthy text without conversion to a string. *)
Theorem mockSummarize_one_line (text : jsval) :
  match mockSummarize text with
  | Ok summary => one_line summary
  | Throw e => Js.truthy text = true /\ Js.to_string text = Throw e
  end.
Proof.
  destruct (mockSummarize text) as [summary|e] eqn:H;
    [|now apply mockSummarize_throws].
  apply mockSummarize_returns in H as (t & Ht & [[-> ->] | [Hne ->]]).
  - now apply one_line_literal.
  - destruct (normalize_normalized _ _ Ht) as (_ & _ & Hs).
    apply single_spaced_one_line in Hs.
    assert (Hseg : one_line (code_segment t)).
    { unfold code_segment. destruct (first_split _); [|exact Hs].
      now apply one_line_take. }
    apply one_line_app; [now apply one_line_literal|].
    unfold clip. destruct (240 <? _)%nat; [|exact Hseg].
    apply one_line_app; [now apply one_line_take|now apply one_line_literal].
Qed.

(** ** [extractIdToken]: its outcomes, and the two spellings of the header *)

Lemma extractIdToken_pure (request : request) (t : list event) :
  extractIdToken request t = (fst (extractIdToken request []), t).
Proof.
  unfold extractIdToken, Eff.bind, Eff.ret, Eff.throw.
  destruct (Js.or _ _); try reflexivity.
  now destruct (match_bearer s).
Qed.

(** X6.  The extractor has two outcomes and no effect: it throws the
    missing-credential error, or it returns a token that follows the
    prefix [Bearer ] in the value stored under [authorization] or under
    [Authorization]; the token holds no line terminator, and the trace is
    left as it was. *)
Theorem extractIdToken_outcomes (request : request) (t : list event) :
  extractIdToken request t = (Throw missing_credential, t)
  \/ exists k v X : jsstring,
       (k = lit "authorization" \/ k = lit "Authorization")
       /\ headers request !! k = Some v
       /\ bearer_value v X
       /\ forallb (fun c => negb (is_line_terminator c)) X = true
       /\ extractIdToken request t = (Ok X, t).
Proof.
  unfold extractIdToken. unfold str_field.
  destruct (headers request !! lit "authorization") as [v|] eqn:Hlow.
  - destruct v as [|c v].
    + destruct (headers request !! lit "Authorization") as [v'|] eqn:Hcap;
        [|now left].
      destruct v' as [|c' v']; [now left|].
      unfold Eff.bind, Eff.ret. cbn -[match_bearer].
      destruct (match_bearer (c' :: v')) as [X|] eqn:HX; [|now left].
      right. exists (lit "Authorization"), (c' :: v'), X.
      apply match_bearer_spec in HX as HX'.
      repeat split; auto. now destruct HX' as (_ & _ & _ & _ & H).
    + unfold Eff.bind, Eff.ret. cbn -[match_bearer].
      destruct (match_bearer (c :: v)) as [X|] eqn:HX; [|now left].
      right. exists (lit "authorization"), (c :: v), X.
      apply match_bearer_spec in HX as HX'.
      repeat split; auto. now destruct HX' as (_ & _ & _ & _ & H).
  - destruct (headers request !! lit "Authorization") as [v'|] eqn:Hcap;
      [|now left].
    destruct v' as [|c' v']; [now left|].
    unfold Eff.bind, Eff.ret. cbn -[match_bearer].
    destruct (match_bearer (c' :: v')) as [X|] eqn:HX; [|now left].
    right. exists (lit "Authorization"), (c' :: v'), X.
    apply match_bearer_spec in HX as HX'.
    repeat split; auto. now destruct HX' as (_ & _ & _ & _ & H).
Qed.

(** X7.  The spelling [authorization] comes first: when its value is not
    empty it decides alone, whatever is stored under [Authorization],
    even if it is refused and the other value would be accepted; when it
    is missing or empty, the value under [Authorization] is used in its
    place. *)
Theorem extractIdToken_spelling_priority (request : request) (v : jsstring)
        (t : list event) :
  (headers request !! lit "authorization" = Some v -> v <> [] ->
   extractIdToken request t = extractIdToken (with_authorization v) t)
  /\ (Js.truthy (str_field (headers request) (lit "authorization")) = false ->
      headers request !! lit "Authorization" = Some v ->
      extractIdToken request t = extractIdToken (with_authorization v) t).
Proof.
  assert (Hone : forall u : jsstring,
             Js.or (Js.or (str_field (headers (with_authorization u))
                                     (lit "authorization"))
                          (str_field (headers (with_authorization u))
                                     (lit "Authorization")))
                   (VStr []) = VStr u).
  { intros u. unfold with_authorization, str_field. cbn [headers].
    rewrite lookup_singleton_eq.
    rewrite lookup_singleton_ne by discriminate.
    now destruct u. }
  split.
  - intros Hlow Hne. unfold extractIdToken. rewrite Hone.
    unfold str_field at 1. rewrite Hlow.
    destruct v; [congruence|reflexivity].
  - intros Hlow Hcap. unfold extractIdToken. rewrite Hone.
    rewrite (or_falsy _ _ Hlow). unfold str_field. rewrite Hcap.
    now destruct v.
Qed.

Lemma extractIdToken_spelling_priority_witness :
  extractIdToken
    {| headers := {[ lit "authorization" := lit "Basic abc";
                     lit "Authorization" := lit "Bearer abc" ]};
       query := ∅; body := VUndefined |} []
  = (Throw missing_credential, [])
  /\ extractIdToken
       {| headers := {[ lit "Authorization" := lit "Bearer abc" ]};
          query := ∅; body := VUndefined |} []
     = (Ok (lit "abc"), []).
Proof.
  split.
  - exact (proj1 (extractIdToken_spelling_priority
                    {| headers := {[ lit "authorization" := lit "Basic abc";
                                     lit "Authorization" := lit "Bearer abc" ]};
                       query := ∅; body := VUndefined |}
                    (lit "Basic abc") [])
             eq_refl ltac:(discriminate)).
  - exact (proj2 (extractIdToken_spelling_priority
                    {| headers := {[ lit "Authorization" := lit "Bearer abc" ]};
                       query := ∅; body := VUndefined |}
                    (lit "Bearer abc") [])
             eq_refl eq_refl).
Defined.

(** ** [getUserNotes]: the listing *)

Lemma eqb_refl (k : jsstring) : eqb k k = true.
Proof. now apply eqb_eq. Qed.

Lemma eqb_neq (k k' : jsstring) : k <> k' -> eqb k k' = false.
Proof. intros H. apply not_true_is_false. now rewrite eqb_eq. Qed.

Lemma assoc_set_eq (k : jsstring) (v : jsval) (fs : list (jsstring * jsval)) :
  Js.assoc k (Obj.set k v fs) = Some v.
Proof.
  induction fs as [|[k' v'] r IH]; simpl.
  - now rewrite eqb_refl.
  - destruct (eqb k k') eqn:Hk; simpl.
    + now rewrite eqb_refl.
    + now rewrite Hk.
Qed.

Lemma assoc_set_ne (k k' : jsstring) (v : jsval)
      (fs : list (jsstring * jsval)) :
  k <> k' -> Js.assoc k' (Obj.set k v fs) = Js.assoc k' fs.
Proof.
  intros Hne. induction fs as [|[k0 v0] r IH]; simpl.
  - rewrite eqb_neq; congruence.
  - destruct (eqb k k0) eqn:Hk; simpl.
    + apply eqb_eq in Hk as <-. now rewrite !eqb_neq by congruence.
    + now rewrite IH.
Qed.

Lemma assoc_spread_absent (k : jsstring) (base more : list (jsstring * jsval)) :
  k ∉ map fst more ->
  Js.assoc k (Obj.spread base more) = Js.assoc k base.
Proof.
  unfold Obj.spread. revert base.
  induction more as [|[k1 v1] m IH]; intros base Hnot; simpl; [reflexivity|].
  simpl in Hnot. apply not_elem_of_cons in Hnot as [Hne Hnot].
  rewrite (IH _ Hnot). apply assoc_set_ne. congruence.
Qed.

Lemma assoc_spread_present (k : jsstring) (v : jsval)
      (base more : list (jsstring * jsval)) :
  unique_keys more -> Js.assoc k more = Some v ->
  Js.assoc k (Obj.spread base more) = Some v.
Proof.
  unfold unique_keys, Obj.spread. revert base.
  induction more as [|[k1 v1] m IH]; intros base Hu; simpl; [discriminate|].
  simpl in Hu. apply NoDup_cons in Hu as [Hnot Hu].
  destruct (eqb k k1) eqn:Hk.
  - intros [= ->]. apply eqb_eq in Hk as ->.
    change (fold_left _ m ?b) with (Obj.spread b m).
    rewrite (assoc_spread_absent _ _ _ Hnot). apply assoc_set_eq.
  - intros Hm. now apply IH.
Qed.

(** X8.  A note of the listing carries every field of its document with
    the value stored, and the document identifier under [id]; a document
    that has a field [id] of its own shows that field instead of its
    identifier. *)
Theorem note_object_fields (d : document) :
  unique_keys (doc_data d) ->
  (forall (k : jsstring) (v : jsval),
      Js.assoc k (doc_data d) = Some v -> Js.prop k (note_object d) = v)
  /\ (lit "id" ∉ map fst (doc_data d) ->
      Js.prop (lit "id") (note_object d) = VStr (doc_id d))
  /\ (forall k : jsstring,
         k <> lit "id" -> k ∉ map fst (doc_data d) ->
         Js.prop k (note_object d) = VUndefined).
Proof.
  intros Hu. unfold note_object, Js.prop. repeat split.
  - intros k v Hk. now rewrite (assoc_spread_present _ _ _ _ Hu Hk).
  - intros Hnot. now rewrite (assoc_spread_absent _ _ _ Hnot).
  - intros k Hk Hnot. rewrite (assoc_spread_absent _ _ _ Hnot). simpl.
    now rewrite eqb_neq.
Qed.

Lemma note_object_fields_witness :
  Js.prop (lit "id")
          (note_object {| doc_id := lit "n1";
                          doc_data := [(lit "content", VStr (lit "Hi"));
                                       (lit "id", VStr (lit "mine"))] |})
  = VStr (lit "mine")
  /\ Js.prop (lit "id")
             (note_object {| doc_id := lit "n1";
                             doc_data := [(lit "content", VStr (lit "Hi"))] |})
     = VStr (lit "n1").
Proof.
  split.
  - apply (proj1 (note_object_fields
                    {| doc_id := lit "n1";
                       doc_data := [(lit "content", VStr (lit "Hi"));
                                    (lit "id", VStr (lit "mine"))] |}
                    ltac:(unfold unique_keys; compute_done))).
    reflexivity.
  - apply (proj1 (proj2 (note_object_fields
                    {| doc_id := lit "n1";
                       doc_data := [(lit "content", VStr (lit "Hi"))] |}
                    ltac:(unfold unique_keys; compute_done)))).
    compute_done.
Defined.

(** Case analysis on the membership of an event in an explicit trace. *)
Ltac in_trace H :=
  simpl in H;
  repeat match type of H with
         | _ \/ _ => destruct H as [H|H]; [try discriminate H|]
         | False => contradiction
         end;
  try discriminate H.

Lemma authenticated_token (w : world) (request : request)
      (idToken uid : jsstring) (t : list event) :
  authenticated w request idToken uid ->
  extractIdToken request t = (Ok idToken, t).
Proof. intros [H _]. now rewrite extractIdToken_pure, H. Qed.

(** X9.  For a request whose credential is verified, when the store
    answers, the listing is answered 200 with one note per document, in
    the order of the store; the trace is the log line, the verification
    and one read of the notes of the user the credential belongs to. *)
Theorem getUserNotes_success (w : world) (request : request)
        (idToken uid : jsstring) (docs : list document) :
  authenticated w request idToken uid ->
  notes_get w uid = Ok docs ->
  exists notes : list jsval,
    Eff.run (getUserNotes w request)
    = (Ok {| code := 200; sent := Json (VObj [(lit "notes", VArr notes)]) |},
       [LogInfo (lit "Get user notes function triggered");
        CallVerify idToken; CallNotesGet uid])
    /\ length notes = length docs
    /\ (forall (i : nat) (d : document),
           docs !! i = Some d -> notes !! i = Some (note_object d)).
Proof.
  intros Hauth Hget. exists (map note_object docs). repeat split.
  - unfold getUserNotes. handler_steps.
    rewrite (authenticated_token _ _ _ _ _ Hauth).
    destruct Hauth as [_ Hver]. now rewrite Hver, Hget.
  - apply length_map.
  - intros i d Hd. change (map note_object docs) with (note_object <$> docs).
    now rewrite list_lookup_fmap, Hd.
Qed.

Lemma getUserNotes_success_witness :
  exists notes : list jsval,
    Eff.run (getUserNotes (Sample.w (Sample.reply true "" Sample.completion))
                          (Sample.req "Bearer abc" VUndefined VUndefined))
    = (Ok {| code := 200; sent := Json (VObj [(lit "notes", VArr notes)]) |},
       [LogInfo (lit "Get user notes function triggered");
        CallVerify (lit "abc"); CallNotesGet (lit "u1")])
    /\ length notes = 1%nat.
Proof.
  destruct (getUserNotes_success
              (Sample.w (Sample.reply true "" Sample.completion))
              (Sample.req "Bearer abc" VUndefined VUndefined)
              (lit "abc") (lit "u1")
              [{| doc_id := lit "n1";
                  doc_data := [(lit "content", VStr (lit "Hi"))] |}]
              (conj eq_refl eq_refl) eq_refl) as (notes & Hrun & Hlen & _).
  exists notes. split; [exact Hrun|exact Hlen].
Defined.

(** X10.  The listing always answers, and in one of two ways: 401 with
    the plain text [Unauthorized], or 200 with a JSON list of notes.  It
    never calls the summarization backend and never reads a single note;
    it verifies at most one credential and reads the store at most once,
    and only the notes of a user to whom the credential of the request
    belongs. *)
Theorem getUserNotes_discipline (w : world) (request : request) :
  (exists r : response,
      fst (Eff.run (getUserNotes w request)) = Ok r
      /\ (r = {| code := 401; sent := Plain (lit "Unauthorized") |}
          \/ exists notes, r = {| code := 200;
                                  sent := Json (VObj [(lit "notes",
                                                       VArr notes)]) |}))
  /\ calls is_fetch (snd (Eff.run (getUserNotes w request))) = 0%nat
  /\ calls is_note_get (snd (Eff.run (getUserNotes w request))) = 0%nat
  /\ (calls is_verify (snd (Eff.run (getUserNotes w request))) <= 1)%nat
  /\ (calls is_notes_get (snd (Eff.run (getUserNotes w request))) <= 1)%nat
  /\ (forall uid : jsstring,
         In (CallNotesGet uid) (snd (Eff.run (getUserNotes w request))) ->
         exists idToken, authenticated w request idToken uid).
Proof.
  unfold Eff.run, getUserNotes, authenticated. handler_steps.
  rewrite (extractIdToken_pure request).
  destruct (fst (extractIdToken request [])) as [idToken|e] eqn:Htok;
    cbv beta iota;
    [destruct (verifyIdToken w idToken) as [uid|e] eqn:Hver;
     [destruct (notes_get w uid) as [docs|e] eqn:Hget|]|];
    (split; [eexists; split; [reflexivity|eauto]|]);
    unfold calls; cbn;
    repeat split; try lia;
    intros u Hin; in_trace Hin; injection Hin as <-; eauto.
Qed.

Lemma getUserNotes_discipline_witness :
  exists idToken : jsstring,
    authenticated (Sample.w (Sample.reply true "" Sample.completion))
                  (Sample.req "Bearer def" VUndefined VUndefined)
                  idToken (lit "u2").
Proof.
  apply (proj2 (proj2 (proj2 (proj2 (proj2
           (getUserNotes_discipline
              (Sample.w (Sample.reply true "" Sample.completion))
              (Sample.req "Bearer def" VUndefined VUndefined))))))
           (lit "u2")).
  vm_compute. tauto.
Defined.

(** ** [summarizeNote]: the other answers *)

(** Case analysis on every path of a handler: each scrutinee of the
    unfolded body is destructed, innermost first, and its equation kept. *)
Ltac handler_paths :=
  repeat (cbv beta iota;
          match goal with
          | |- context [extractIdToken ?r (?x :: ?l)] =>
              rewrite (extractIdToken_pure r (x :: l))
          | |- context [choice_content ?a (?x :: ?l)] =>
              rewrite (choice_content_pure a (x :: l))
          | |- context [negb ?b] => destruct b eqn:?; cbn [negb]
          | |- context [match ?x with _ => _ end] =>
              lazymatch x with
              | context [match _ with _ => _ end] => fail
              | _ => destruct x eqn:?
              end
          end).

(** X11.  The handler answers, unless the identifier source is a truthy
    value that is not a string (a number, an array, an object): then it
    throws a type error after its first log line and sends nothing.  With
    a string as identifier source it always answers, with one of the
    codes 200, 400, 401, 404, 500 and 502. *)
Theorem summarizeNote_answers (w : world) (env0 env : gmap jsstring jsstring)
        (request : request) :
  ((forall s, id_source request <> VStr s) ->
   Eff.run (summarizeNote w env0 env request)
   = (Throw (not_a_function (lit "trim")),
      [LogInfo (lit "summarizeNote triggered")]))
  /\ (forall s, id_source request = VStr s ->
                exists (r : response) (t : list event),
                  Eff.run (summarizeNote w env0 env request) = (Ok r, t)
                  /\ In (code r) summarize_codes).
Proof.
  split.
  - intros Hs. unfold Eff.run, summarizeNote. handler_steps.
    destruct (id_source request); try reflexivity. now destruct (Hs s).
  - intros s Hs. unfold Eff.run, summarizeNote. handler_steps. rewrite Hs.
    handler_paths;
      (eexists; eexists; split; [reflexivity|]);
      unfold summarize_codes, json_error; cbn [code]; simpl; tauto.
Qed.

Lemma summarizeNote_answers_witness :
  Eff.run (summarizeNote (Sample.w (Sample.reply true "" Sample.completion))
                         ∅ Sample.mock_env
                         {| headers := ∅; query := ∅;
                            body := VObj [(lit "id",
                                           VNum true (lit "123"))] |})
  = (Throw (not_a_function (lit "trim")),
     [LogInfo (lit "summarizeNote triggered")])
  /\ exists (r : response) (t : list event),
       Eff.run (summarizeNote
                  (Sample.w (Sample.reply true "" Sample.completion))
                  ∅ Sample.mock_env
                  (Sample.req "Bearer abc" (VStr (lit "n3")) VUndefined))
       = (Ok r, t)
       /\ In (code r) summarize_codes.
Proof.
  split.
  - apply (proj1 (summarizeNote_answers _ _ _ _)). intros s. discriminate.
  - apply (proj2 (summarizeNote_answers _ _ _ _) (lit "n3")). reflexivity.
Defined.

Lemma reaches_note_intro (w : world) (request : request)
      (idToken uid s : jsstring) (snap : snapshot) :
  id_source request = VStr s -> is_empty (trim s) = false ->
  fst (extractIdToken request []) = Ok idToken ->
  verifyIdToken w idToken = Ok uid ->
  note_get w uid (trim s) = Ok snap -> snap_exists snap = true ->
  reaches_note w request idToken uid (trim s)
               (Js.or (snap_data snap) (VObj [])).
Proof.
  intros Hs He Htok Hver Hget Hex. split.
  - now exists s.
  - now apply is_empty_false.
  - intros t. now rewrite extractIdToken_pure, Htok.
  - exact Hver.
  - now exists snap.
Qed.

Lemma reaches_decision_intro (w : world) (request : request)
      (idToken uid s : jsstring) (snap : snapshot) :
  id_source request = VStr s -> is_empty (trim s) = false ->
  fst (extractIdToken request []) = Ok idToken ->
  verifyIdToken w idToken = Ok uid ->
  note_get w uid (trim s) = Ok snap -> snap_exists snap = true ->
  Js.truthy (note_text (Js.or (snap_data snap) (VObj []))) = true ->
  reaches_decision w request idToken uid (trim s)
                   (note_text (Js.or (snap_data snap) (VObj []))).
Proof.
  intros Hs He Htok Hver Hget Hex Htext.
  exists (Js.or (snap_data snap) (VObj [])).
  split; [now apply reaches_note_intro|]. now split.
Qed.

Lemma use_mock_false (env0 env : gmap jsstring jsstring) :
  use_mock env0 env = false -> ~ force_mock env.
Proof.
  intros H Hf.
  assert (use_mock env0 env = true) by (apply use_mock_spec; now left).
  congruence.
Qed.

(** X12.  The handler reads the store and calls the backend for the
    caller only: a note is fetched under the user to whom the credential
    of the request belongs and under the trimmed identifier of the
    request, and the backend is called only for a request that reached
    the summarization decision, with the request made from the text of
    that note, when no mock is forced and a key is configured. *)
Theorem summarizeNote_calls_authorized
        (w : world) (env0 env : gmap jsstring jsstring) (request : request) :
  (forall uid noteId : jsstring,
      In (CallNoteGet uid noteId)
         (snd (Eff.run (summarizeNote w env0 env request))) ->
      exists idToken s : jsstring,
        authenticated w request idToken uid
        /\ id_source request = VStr s /\ noteId = trim s /\ noteId <> [])
  /\ (forall rq : fetch_request,
         In (CallFetch rq)
            (snd (Eff.run (summarizeNote w env0 env request))) ->
         exists (idToken uid noteId : jsstring) (text : jsval),
           reaches_decision w request idToken uid noteId text
           /\ completion_request env text = Ok rq
           /\ ~ force_mock env
           /\ Js.truthy (apiKey env) = true).
Proof.
  split.
  - intros uid noteId. unfold Eff.run, summarizeNote. handler_steps.
    handler_paths; cbn [snd]; intros Hin; in_trace Hin;
      injection Hin as <- <-;
      (eexists; eexists; split; [split; eassumption|]);
      (split; [reflexivity|]); (split; [reflexivity|]);
      now apply is_empty_false.
  - intros rq. unfold Eff.run, summarizeNote. handler_steps.
    handler_paths; cbn [snd]; intros Hin; in_trace Hin;
      injection Hin as <-;
      (do 4 eexists; split;
       [eapply reaches_decision_intro; eassumption|]);
      (split; [eassumption|]);
      (split; [eapply use_mock_false; eassumption|reflexivity]).
Qed.

(** X13.  The external calls of a request come in one order and at most
    once each: the verification of the credential, then the fetch of the
    note, then the call to the backend; the trace begins with the log
    line of the handler. *)
Theorem summarizeNote_call_order
        (w : world) (env0 env : gmap jsstring jsstring) (request : request) :
  exists (idToken uid noteId : jsstring) (rq : fetch_request),
    List.filter is_external
                (snd (Eff.run (summarizeNote w env0 env request)))
    `prefix_of` [CallVerify idToken; CallNoteGet uid noteId; CallFetch rq]
    /\ head (snd (Eff.run (summarizeNote w env0 env request)))
       = Some (LogInfo (lit "summarizeNote triggered")).
Proof.
  unfold Eff.run, summarizeNote. handler_steps.
  handler_paths; cbn [snd]; simpl;
    (do 4 eexists; split; [eexists; reflexivity|reflexivity]).
  Unshelve.
  all: first [exact [] | exact {| url := []; method := [];
                                  req_headers := []; payload := VNull |}].
Qed.

Lemma summarizeNote_calls_authorized_witness :
  exists idToken s : jsstring,
    authenticated (Sample.w (Sample.reply true "" Sample.completion))
                  (Sample.req "Bearer abc" (VStr (lit " n1 ")) VUndefined)
                  idToken (lit "u1")
    /\ id_source (Sample.req "Bearer abc" (VStr (lit " n1 ")) VUndefined)
       = VStr s
    /\ lit "n1" = trim s /\ lit "n1" <> [].
Proof.
  apply (proj1 (summarizeNote_calls_authorized
                  (Sample.w (Sample.reply true "" Sample.completion))
                  ∅ Sample.mock_env
                  (Sample.req "Bearer abc" (VStr (lit " n1 ")) VUndefined))
           (lit "u1") (lit "n1")).
  vm_compute. tauto.
Defined.

(** X14.  With a verified credential and an identifier that is not blank,
    a note that does not exist is answered 404 with the error [Note not
    found]; the trace stops at the fetch of the note. *)
Theorem summarizeNote_not_found
        (w : world) (env0 env : gmap jsstring jsstring) (request : request)
        (idToken uid s : jsstring) (snap : snapshot) :
  id_source request = VStr s -> trim s <> [] ->
  authenticated w request idToken uid ->
  note_get w uid (trim s) = Ok snap ->
  snap_exists snap = false ->
  Eff.run (summarizeNote w env0 env request)
  = (Ok (json_error 404 (lit "Note not found")),
     trace_to_note idToken uid (trim s)).
Proof.
  intros Hs Hne Hauth Hget Hex. apply is_empty_false in Hne.
  unfold Eff.run, summarizeNote, trace_to_note. handler_steps.
  rewrite Hs. cbv beta iota. rewrite Hne.
  rewrite (authenticated_token _ _ _ _ _ Hauth).
  destruct Hauth as [_ Hver]. now rewrite Hver, Hget, Hex.
Qed.

Lemma summarizeNote_not_found_witness :
  Eff.run (summarizeNote (Sample.w (Sample.reply true "" Sample.completion))
                         ∅ Sample.mock_env
                         (Sample.req "Bearer abc" (VStr (lit "n3")) VUndefined))
  = (Ok (json_error 404 (lit "Note not found")),
     trace_to_note (lit "abc") (lit "u1") (lit "n3")).
Proof.
  apply (summarizeNote_not_found
           (Sample.w (Sample.reply true "" Sample.completion))
           ∅ Sample.mock_env
           (Sample.req "Bearer abc" (VStr (lit "n3")) VUndefined)
           (lit "abc") (lit "u1") (lit "n3")
           {| snap_exists := false; snap_data := VUndefined |});
    try reflexivity.
  - discriminate.
  - split; reflexivity.
Defined.

Lemma truthy_field_nonempty (m : gmap jsstring jsstring) (k : jsstring) :
  Js.truthy (str_field m k) = false <-> forall v, m !! k = Some v -> v = [].
Proof.
  unfold str_field. destruct (m !! k) as [v|]; simpl.
  - split.
    + intros H v' [= <-]. now destruct v.
    + intros H. now rewrite (H v eq_refl).
  - split; [discriminate|reflexivity].
Qed.

(** X15.  No key is configured exactly when each of the variables
    [OPENAI_API_KEY] and [openai_key] is unset or empty.  Then, outside the
    emulator and without the force-mock flag, a request that reaches the
    summarization decision is answered 500 with the error [OpenAI API key
    not configured], and the backend is not called. *)
Theorem summarizeNote_key_not_configured
        (w : world) (env0 env : gmap jsstring jsstring) (request : request)
        (idToken uid noteId : jsstring) (text : jsval) :
  (no_api_key env
   <-> (forall k, env !! lit "OPENAI_API_KEY" = Some k -> k = [])
       /\ (forall k, env !! lit "openai_key" = Some k -> k = []))
  /\ (reaches_decision w request idToken uid noteId text ->
      ~ force_mock env -> isEmulator env0 = false -> no_api_key env ->
      Eff.run (summarizeNote w env0 env request)
      = (Ok (json_error 500 (lit "OpenAI API key not configured")),
         trace_to_note idToken uid noteId)).
Proof.
  split.
  - unfold no_api_key, apiKey.
    rewrite <- !truthy_field_nonempty.
    destruct (Js.truthy (str_field env (lit "OPENAI_API_KEY"))) eqn:H1.
    + rewrite !(or_truthy _ _ H1), H1. split; [discriminate|tauto].
    + rewrite (or_falsy _ _ H1).
      destruct (Js.truthy (str_field env (lit "openai_key"))) eqn:H2.
      * rewrite (or_truthy _ _ H2), H2. split; [discriminate|tauto].
      * rewrite (or_falsy _ _ H2). simpl. tauto.
  - intros (data & Hreach & Htext & Htruthy) Hflag Hemu Hkey.
    rewrite (summarizeNote_to_note _ _ _ _ _ _ _ _ Hreach).
    rewrite Htext. cbv zeta.
    assert (Hmock : use_mock env0 env = false).
    { apply not_true_is_false. intros H.
      apply use_mock_spec in H as [H|[H _]]; [tauto|congruence]. }
    unfold no_api_key in Hkey.
    handler_steps. now rewrite Htruthy, Hmock, Hkey.
Qed.

Lemma summarizeNote_key_not_configured_witness :
  Eff.run (summarizeNote (Sample.w (Sample.reply true "" Sample.completion))
                         ∅ ∅
                         (Sample.req "Bearer abc" (VStr (lit " n1 "))
                                     VUndefined))
  = (Ok (json_error 500 (lit "OpenAI API key not configured")),
     trace_to_note (lit "abc") (lit "u1") (lit "n1")).
Proof.
  apply (proj2 (summarizeNote_key_not_configured
                  (Sample.w (Sample.reply true "" Sample.completion))
                  ∅ ∅ _ _ _ _ _)
           (sample_reaches_decision _ VUndefined));
    [intros H; vm_compute in H; discriminate | reflexivity | reflexivity].
Defined.

(** The live path up to the call of the backend, for a request that is
    built. *)
Lemma summarizeNote_to_fetch
      (w : world) (env0 env : gmap jsstring jsstring) (request : request)
      (idToken uid noteId : jsstring) (text : jsval) (rq : fetch_request) :
  reaches_decision w request idToken uid noteId text ->
  ~ force_mock env -> Js.truthy (apiKey env) = true ->
  completion_request env text = Ok rq ->
  Eff.run (summarizeNote w env0 env request)
  = Eff.try_catch
      (let* openAiResp := Eff.await (CallFetch rq) (fetch w rq) in
       if negb (ok openAiResp)
       then
         let* errText := Eff.lift (read_text openAiResp) in
         let* _ := Eff.emit (LogBackendError (lit "OpenAI API error")
                               (status openAiResp) errText) in
         Eff.ret {| code := 502;
                    sent := Json (VObj [(lit "error",
                                         VStr (lit "Failed to summarize"));
                                        (lit "details", VStr errText)]) |}
       else
         let* aiJson := Eff.lift (read_json openAiResp) in
         let* content := choice_content aiJson in
         let summary := Js.or content (VStr (lit "(No summary)")) in
         Eff.ret {| code := 200;
                    sent := Json (VObj [(lit "id", VStr noteId);
                                        (lit "summary", summary)]) |})
      (fun err =>
       let* _ := Eff.emit (LogError (lit "summarizeNote failure")
                                    (exn_to_string err)) in
       Eff.ret (json_error 500 (lit "Internal error")))
      (trace_to_note idToken uid noteId).
Proof.
  intros (data & Hreach & Htext & Htruthy) Hflag Hkey Hrq.
  rewrite (summarizeNote_to_note _ _ _ _ _ _ _ _ Hreach).
  rewrite Htext. cbv zeta. handler_steps.
  rewrite Htruthy, (api_key_live env0 env Hflag Hkey), Hkey.
  cbn [negb]. cbv beta iota. now rewrite Hrq.
Qed.

(** The live path after a reply of the backend with a success status and
    a body that parses as [aiJson]. *)
Lemma summarizeNote_live
      (w : world) (env0 env : gmap jsstring jsstring) (request : request)
      (idToken uid noteId : jsstring) (text : jsval) (rq : fetch_request)
      (resp : fetch_response) (aiJson : jsval) :
  reaches_decision w request idToken uid noteId text ->
  ~ force_mock env -> Js.truthy (apiKey env) = true ->
  completion_request env text = Ok rq ->
  fetch w rq = Ok resp ->
  ok resp = true -> read_json resp = Ok aiJson ->
  Eff.run (summarizeNote w env0 env request)
  = match fst (choice_content aiJson []) with
    | Ok content =>
        (Ok {| code := 200;
               sent := Json (VObj [(lit "id", VStr noteId);
                                   (lit "summary",
                                    Js.or content
                                          (VStr (lit "(No summary)")))]) |},
         trace_to_note idToken uid noteId ++ [CallFetch rq])
    | Throw e =>
        (Ok (json_error 500 (lit "Internal error")),
         trace_to_note idToken uid noteId
         ++ [CallFetch rq;
             LogError (lit "summarizeNote failure") (exn_to_string e)])
    end.
Proof.
  intros Hreach Hflag Hkey Hrq Hfetch Hok Hjson.
  rewrite (summarizeNote_to_fetch _ _ _ _ _ _ _ _ _ Hreach Hflag Hkey Hrq).
  handler_steps. rewrite Hfetch. cbv beta iota.
  rewrite Hok. cbn [negb]. cbv beta iota. rewrite Hjson. cbv beta iota.
  rewrite (choice_content_pure aiJson).
  now destruct (fst (choice_content aiJson [])).
Qed.

Lemma choice_content_completion (content : jsval) (more : list jsval) :
  fst (choice_content (completion_of content more) [])
  = if Obj.nullish content then Ok VUndefined
    else match content with
         | VStr s => Ok (VStr (trim s))
         | _ => Throw (not_a_function (lit "trim"))
         end.
Proof.
  destruct content; vm_compute; reflexivity.
Qed.

(** X16.  On the live path, for a request that is built and a reply of
    the backend that has a success status and the usual shape: a content
    that is a string with something else than white space gives 200 with
    the trimmed content as summary; a content that is missing, null or
    blank gives 200 with the summary [(No summary)]; a content of another
    type gives 500 with the error [Internal error]. *)
Theorem summarizeNote_live_summary
        (w : world) (env0 env : gmap jsstring jsstring) (request : request)
        (idToken uid noteId : jsstring) (text : jsval) (rq : fetch_request)
        (resp : fetch_response) (content : jsval) (more : list jsval) :
  reaches_decision w request idToken uid noteId text ->
  ~ force_mock env -> Js.truthy (apiKey env) = true ->
  completion_request env text = Ok rq ->
  fetch w rq = Ok resp ->
  ok resp = true ->
  read_json resp = Ok (completion_of content more) ->
  (forall s, content = VStr s -> ~ blank s ->
             fst (Eff.run (summarizeNote w env0 env request))
             = Ok (live_answer noteId (trim s)))
  /\ (content = VUndefined \/ content = VNull
      \/ (exists s, content = VStr s /\ blank s) ->
      fst (Eff.run (summarizeNote w env0 env request))
      = Ok (live_answer noteId (lit "(No summary)")))
  /\ (Obj.nullish content = false -> (forall s, content <> VStr s) ->
      fst (Eff.run (summarizeNote w env0 env request))
      = Ok (json_error 500 (lit "Internal error"))).
Proof.
  intros Hreach Hflag Hkey Hrq Hfetch Hok Hjson.
  rewrite (summarizeNote_live _ _ _ _ _ _ _ _ _ _ _
             Hreach Hflag Hkey Hrq Hfetch Hok Hjson).
  rewrite choice_content_completion. repeat split.
  - intros s -> Hs. cbn [Obj.nullish fst].
    rewrite <- trim_nil in Hs. unfold live_answer.
    destruct (trim s); [congruence|reflexivity].
  - intros [-> | [-> | (s & -> & Hs)]]; try reflexivity.
    cbn [Obj.nullish fst]. apply trim_nil in Hs. now rewrite Hs.
  - intros Hn Hs. rewrite Hn.
    destruct content; try reflexivity. now destruct (Hs s).
Qed.

Lemma summarizeNote_live_summary_witness :
  fst (Eff.run (summarizeNote
                  (Sample.w (Sample.reply true "" Sample.completion))
                  ∅ Sample.live_env
                  (Sample.req "Bearer abc" (VStr (lit " n1 ")) VUndefined)))
  = Ok (live_answer (lit "n1") (lit "Short."))
  /\ fst (Eff.run (summarizeNote
                     (Sample.w (Sample.reply true ""
                                  (completion_of VNull [])))
                     ∅ Sample.live_env
                     (Sample.req "Bearer abc" (VStr (lit " n1 "))
                                 VUndefined)))
     = Ok (live_answer (lit "n1") (lit "(No summary)"))
  /\ fst (Eff.run (summarizeNote
                     (Sample.w (Sample.reply true ""
                                  (completion_of (VBool true) [])))
                     ∅ Sample.live_env
                     (Sample.req "Bearer abc" (VStr (lit " n1 "))
                                 VUndefined)))
     = Ok (json_error 500 (lit "Internal error")).
Proof.
  assert (Hlive : ~ force_mock Sample.live_env)
    by (intros H; vm_compute in H; discriminate).
  destruct (sample_request_built "Hi there. More.") as (rq & Hrq).
  split; [|split].
  - apply (proj1 (summarizeNote_live_summary
                    (Sample.w (Sample.reply true "" Sample.completion))
                    ∅ Sample.live_env _ _ _ _ _ rq
                    (Sample.reply true "" Sample.completion)
                    (VStr (lit " Short. ")) []
                    (sample_reaches_decision _ VUndefined)
                    Hlive eq_refl Hrq eq_refl eq_refl eq_refl)
             (lit " Short. ") eq_refl).
    intros H. vm_compute in H. discriminate.
  - apply (proj1 (proj2 (summarizeNote_live_summary
                    (Sample.w (Sample.reply true "" (completion_of VNull [])))
                    ∅ Sample.live_env _ _ _ _ _ rq
                    (Sample.reply true "" (completion_of VNull []))
                    VNull []
                    (sample_reaches_decision _ VUndefined)
                    Hlive eq_refl Hrq eq_refl eq_refl eq_refl))).
    right. now left.
  - apply (proj2 (proj2 (summarizeNote_live_summary
                    (Sample.w (Sample.reply true ""
                                 (completion_of (VBool true) [])))
                    ∅ Sample.live_env _ _ _ _ _ rq
                    (Sample.reply true "" (completion_of (VBool true) []))
                    (VBool true) []
                    (sample_reaches_decision _ VUndefined)
                    Hlive eq_refl Hrq eq_refl eq_refl eq_refl)));
      [reflexivity | discriminate].
Defined.

(** X17.  After authentication every failure ends in the same answer,
    500 with the error [Internal error].  When a collaborator fails (the
    fetch of the note, the call to the backend for a request that is
    built, the reading of its body as text after a failure status or as
    JSON after a success status), the text of its failure goes to the log
    and nowhere else.  When the content cannot be extracted from the
    parsed body, the answer is the same and the trace ends with an error
    log after the one call to the backend. *)
Theorem summarizeNote_internal_error
        (w : world) (env0 env : gmap jsstring jsstring) (request : request)
        (idToken uid : jsstring) (e : exn) :
  (forall s : jsstring,
      id_source request = VStr s -> trim s <> [] ->
      authenticated w request idToken uid ->
      note_get w uid (trim s) = Throw e ->
      Eff.run (summarizeNote w env0 env request)
      = (Ok (json_error 500 (lit "Internal error")),
         trace_to_note idToken uid (trim s)
         ++ [LogError (lit "summarizeNote failure") (exn_to_string e)]))
  /\ (forall (noteId : jsstring) (text : jsval) (rq : fetch_request),
         reaches_decision w request idToken uid noteId text ->
         ~ force_mock env -> Js.truthy (apiKey env) = true ->
         completion_request env text = Ok rq ->
         (fetch w rq = Throw e
          \/ (exists resp,
                 fetch w rq = Ok resp
                 /\ ((ok resp = false /\ read_text resp = Throw e)
                     \/ (ok resp = true /\ read_json resp = Throw e))) ->
          Eff.run (summarizeNote w env0 env request)
          = (Ok (json_error 500 (lit "Internal error")),
             trace_to_note idToken uid noteId
             ++ [CallFetch rq;
                 LogError (lit "summarizeNote failure") (exn_to_string e)]))
         /\ (forall (resp : fetch_response) (aiJson : jsval),
                fetch w rq = Ok resp -> ok resp = true ->
                read_json resp = Ok aiJson ->
                fst (choice_content aiJson []) = Throw e ->
                exists detail : jsstring,
                  Eff.run (summarizeNote w env0 env request)
                  = (Ok (json_error 500 (lit "Internal error")),
                     trace_to_note idToken uid noteId
                     ++ [CallFetch rq;
                         LogError (lit "summarizeNote failure") detail]))).
Proof.
  split.
  - intros s Hs Hne Hauth Hget. apply is_empty_false in Hne.
    unfold Eff.run, summarizeNote, trace_to_note. handler_steps.
    rewrite Hs. cbv beta iota. rewrite Hne.
    rewrite (authenticated_token _ _ _ _ _ Hauth).
    destruct Hauth as [_ Hver]. now rewrite Hver, Hget.
  - intros noteId text rq Hreach Hflag Hkey Hrq. split.
    + intros Hfail.
      rewrite (summarizeNote_to_fetch _ _ _ _ _ _ _ _ _
                 Hreach Hflag Hkey Hrq).
      handler_steps.
      destruct Hfail
        as [Hfetch | (resp & Hfetch & [[Hok Hbody] | [Hok Hbody]])];
        rewrite Hfetch; cbv beta iota; [reflexivity| |];
        rewrite Hok; cbn [negb]; cbv beta iota; now rewrite Hbody.
    + intros resp aiJson Hfetch Hok Hjson Hcontent.
      rewrite (summarizeNote_live _ _ _ _ _ _ _ _ _ _ _
                 Hreach Hflag Hkey Hrq Hfetch Hok Hjson).
      rewrite Hcontent. now eexists.
Qed.

Lemma summarizeNote_internal_error_witness :
  fst (Eff.run (summarizeNote
                  (Sample.w (Sample.reply true "" VNull))
                  ∅ Sample.live_env
                  (Sample.req "Bearer abc" (VStr (lit " n1 ")) VUndefined)))
  = Ok (json_error 500 (lit "Internal error")).
Proof.
  destruct (sample_request_built "Hi there. More.") as (rq & Hrq).
  destruct (proj2 (proj2 (summarizeNote_internal_error
                     (Sample.w (Sample.reply true "" VNull))
                     ∅ Sample.live_env
                     (Sample.req "Bearer abc" (VStr (lit " n1 ")) VUndefined)
                     (lit "abc") (lit "u1")
                     (TypeError (lit "Cannot read properties of null (reading 'choices')")))
                  (lit "n1") (VStr (lit "Hi there. More.")) rq
                  (sample_reaches_decision _ VUndefined)
                  ltac:(intros H; vm_compute in H; discriminate)
                  eq_refl Hrq)
              (Sample.reply true "" VNull) VNull
              eq_refl eq_refl eq_refl eq_refl) as (detail & Hrun).
  exact (f_equal fst Hrun).
Defined.

(** X18.  Whatever the request and the collaborators, an answer of the
    handler is one of six fixed error answers, or the 502 that carries the
    body of the backend, or a 200; the text of an exception is in none of
    the error answers. *)
Theorem summarizeNote_answer_bodies
        (w : world) (env0 env : gmap jsstring jsstring) (request : request)
        (r : response) :
  fst (Eff.run (summarizeNote w env0 env request)) = Ok r ->
  In r summarize_errors
  \/ (exists text rq resp,
         completion_request env text = Ok rq
         /\ fetch w rq = Ok resp
         /\ exists d, read_text resp = Ok d /\ r = backend_failure d)
  \/ code r = 200.
Proof.
  unfold Eff.run, summarizeNote. handler_steps.
  handler_paths; cbn [fst]; intros [= <-];
    first [ left; unfold summarize_errors; simpl; tauto
          | right; right; reflexivity
          | right; left; do 3 eexists; split; [eassumption|];
            split; [eassumption|];
            eexists; split; [eassumption|reflexivity] ].
Qed.

Lemma summarizeNote_answer_bodies_witness :
  In (json_error 404 (lit "Note not found")) summarize_errors
  \/ (exists text rq resp,
         completion_request Sample.mock_env text = Ok rq
         /\ fetch (Sample.w (Sample.reply true "" Sample.completion)) rq
            = Ok resp
         /\ exists d, read_text resp = Ok d
                      /\ json_error 404 (lit "Note not found")
                         = backend_failure d)
  \/ code (json_error 404 (lit "Note not found")) = 200.
Proof.
  apply (summarizeNote_answer_bodies
           (Sample.w (Sample.reply true "" Sample.completion))
           ∅ Sample.mock_env
           (Sample.req "Bearer abc" (VStr (lit "n3")) VUndefined)).
  reflexivity.
Defined.

(** X19.  The request to the backend carries the configured key as a
    bearer credential: the key is the value of [OPENAI_API_KEY] when that
    is not empty and the value of [openai_key] otherwise, and the header
    built from it is one the pattern of [extractIdToken] reads back to the
    same key.  The request is built whenever the prompt is. *)
Theorem completion_request_credential
        (env : gmap jsstring jsstring) (text : jsval) (k : jsstring) :
  (env !! lit "OPENAI_API_KEY" = Some k
   \/ (Js.truthy (str_field env (lit "OPENAI_API_KEY")) = false
       /\ env !! lit "openai_key" = Some k)) ->
  k <> [] ->
  forallb (fun c => negb (is_line_terminator c)) k = true ->
  apiKey env = VStr k
  /\ (forall rq, completion_request env text = Ok rq ->
                 In (lit "Authorization", bearer ++ k) (req_headers rq))
  /\ (forall p, prompt text = Ok p ->
                exists rq, completion_request env text = Ok rq)
  /\ match_bearer (bearer ++ k) = Some k.
Proof.
  intros Hsrc Hne Hlt.
  assert (Hkey : apiKey env = VStr k).
  { unfold apiKey. destruct Hsrc as [H | [Hf H]].
    - unfold str_field at 1. rewrite H.
      assert (Ht : Js.truthy (VStr k) = true) by now destruct k.
      now rewrite !(or_truthy _ _ Ht).
    - rewrite (or_falsy _ _ Hf). unfold str_field. rewrite H.
      now destruct k. }
  split; [exact Hkey|]. repeat split.
  - intros rq. unfold completion_request. rewrite Hkey.
    destruct (prompt text); [|discriminate].
    cbn [Js.to_string]. intros [= <-]. now left.
  - intros p Hp. unfold completion_request. rewrite Hkey, Hp.
    cbn [Js.to_string]. now eexists.
  - apply match_bearer_spec. exists bearer. repeat split; auto.
Qed.

Lemma completion_request_credential_witness :
  apiKey Sample.live_env = VStr (lit "k")
  /\ (forall rq, completion_request Sample.live_env (VStr (lit "Hi")) = Ok rq ->
                 In (lit "Authorization", bearer ++ lit "k") (req_headers rq))
  /\ (forall p, prompt (VStr (lit "Hi")) = Ok p ->
                exists rq,
                  completion_request Sample.live_env (VStr (lit "Hi")) = Ok rq)
  /\ match_bearer (bearer ++ lit "k") = Some (lit "k").
Proof.
  apply (completion_request_credential Sample.live_env (VStr (lit "Hi"))
                                       (lit "k"));
    [left; reflexivity | discriminate | reflexivity].
Defined.

(** X20.  A text that has no conversion to a string, as a map with a
    field [toString] has none, stops the summary on both paths: for a
    request that reaches the summarization decision with such a text, when
    a mock is in force or a key is configured, [mockSummarize] or the
    making of the prompt throws, the handler answers 500 with the error
    [Internal error], and the backend is not called. *)
Theorem summarizeNote_conversion_failure
        (w : world) (env0 env : gmap jsstring jsstring) (request : request)
        (idToken uid noteId : jsstring) (text : jsval) (e : exn) :
  (Js.truthy text = true -> Js.to_string text = Throw e ->
   mockSummarize text = Throw e
   /\ completion_request env text = Throw e)
  /\ (reaches_decision w request idToken uid noteId text ->
      Js.to_string text = Throw e ->
      force_mock env \/ running_in_emulator env0
      \/ Js.truthy (apiKey env) = true ->
      fst (Eff.run (summarizeNote w env0 env request))
      = Ok (json_error 500 (lit "Internal error"))
      /\ existsb is_fetch (snd (Eff.run (summarizeNote w env0 env request)))
         = false).
Proof.
  assert (Hthrows : Js.truthy text = true -> Js.to_string text = Throw e ->
                    mockSummarize text = Throw e
                    /\ completion_request env text = Throw e).
  { intros Ht He. split.
    - unfold mockSummarize, normalize. now rewrite (or_truthy _ _ Ht), He.
    - unfold completion_request, prompt. now rewrite He. }
  split; [exact Hthrows|].
  - intros (data & Hreach & Htext & Htruthy) He Hcond.
    destruct (Hthrows Htruthy He) as [Hmock Hlive].
    rewrite (summarizeNote_to_note _ _ _ _ _ _ _ _ Hreach).
    rewrite Htext. cbv zeta. handler_steps. rewrite Htruthy.
    cbn [negb]. cbv beta iota.
    destruct (use_mock env0 env) eqn:Huse.
    + rewrite Hmock. split; reflexivity.
    + destruct (Js.truthy (apiKey env)) eqn:Hkey; cbn [negb]; cbv beta iota.
      * rewrite Hlive. split; reflexivity.
      * exfalso.
        assert (Hno : ~ (force_mock env
                         \/ (running_in_emulator env0 /\ no_api_key env))).
        { intros H. apply use_mock_running in H. congruence. }
        unfold no_api_key in Hno.
        destruct Hcond as [H | [H | H]]; [tauto | tauto | discriminate].
Qed.

Lemma summarizeNote_conversion_failure_witness :
  fst (Eff.run (summarizeNote
                  (Sample.odd_world (Sample.reply true "" Sample.completion))
                  ∅ Sample.live_env
                  (Sample.req "Bearer abc" (VStr (lit "n1")) VUndefined)))
  = Ok (json_error 500 (lit "Internal error"))
  /\ existsb is_fetch
       (snd (Eff.run (summarizeNote
                        (Sample.odd_world
                           (Sample.reply true "" Sample.completion))
                        ∅ Sample.live_env
                        (Sample.req "Bearer abc" (VStr (lit "n1"))
                                    VUndefined))))
     = false.
Proof.
  apply (proj2 (summarizeNote_conversion_failure
                  (Sample.odd_world (Sample.reply true "" Sample.completion))
                  ∅ Sample.live_env
                  (Sample.req "Bearer abc" (VStr (lit "n1")) VUndefined)
                  (lit "abc") (lit "u1") (lit "n1")
                  Sample.odd_text cannot_convert)
           (sample_reaches_odd _) eq_refl).
  right. right. reflexivity.
Defined.

(** ** [helloWorld] *)

(** The greeting is the same for every request and needs no credential. *)
Lemma helloWorld_greets (request : request) :
  Eff.run (helloWorld request)
  = (Ok {| code := 200; sent := Plain (lit "Hello from Firebase!") |},
     [LogInfo (lit "Hello logs!")]).
Proof. reflexivity. Qed.
